(** * The in-process message server of autogpt.core.runner.server

  A shallow embedding of [MessageFilters] and [FakeApplicationServer]
  (src/autogpt/core/runner/server.py), of the Python operators they use, and
  of the channel dispatch described in the specification. *)

From stdpp Require Import gmap strings list fin_maps.
From Stdlib Require Import ZArith.

Set Warnings "-register-all".
Set Default Proof Using "Type".

(** ** Python values, exceptions and the operators of the source *)

Module Py.

(** The values that travel in [content] and [metadata] mappings.  Python's
    [int] is unbounded, hence [Z]; a [dict] with [str] keys is a finite map;
    [PObject] stands for an instance without operator overloads (the message
    broker handed around in [content]), identified by its address.  Floats
    and instances of classes that overload operators are not modelled. *)
Inductive pyval : Type :=
| PNone
| PBool (b : bool)
| PInt (z : Z)
| PStr (s : string)
| PList (l : list pyval)
| PDict (d : gmap string pyval)
| PObject (id : positive).

Abbreviation pydict := (gmap string pyval).

Inductive exn : Type :=
| KeyError (key : string)
| TypeError (msg : string)
| AttributeError (attr : string)
| IndexError (msg : string)
| OtherError (msg : string).

(** Outcome of evaluating a Python expression: a value or a raised exception. *)
Inductive result (A : Type) : Type :=
| Ok (a : A)
| Raise (e : exn).
Arguments Ok {A} a.
Arguments Raise {A} e.

Definition bind {A B} (c : result A) (k : A -> result B) : result B :=
  match c with
  | Ok a => k a
  | Raise e => Raise e
  end.

Definition type_name (v : pyval) : string :=
  match v with
  | PNone => "NoneType"
  | PBool _ => "bool"
  | PInt _ => "int"
  | PStr _ => "str"
  | PList _ => "list"
  | PDict _ => "dict"
  | PObject _ => "object"
  end.

Definition unsupported_operand (op : string) (a b : pyval) : exn :=
  TypeError ("unsupported operand type(s) for " +:+ op +:+ ": '"
             +:+ type_name a +:+ "' and '" +:+ type_name b +:+ "'").

Definition not_a_mapping (tn : string) : exn :=
  TypeError ("'" +:+ tn +:+ "' object is not a mapping").

Definition Z_of_bool (b : bool) : Z := if b then 1%Z else 0%Z.

(** [d[k]] on a dict. *)
Definition getitem (d : pydict) (k : string) : result pyval :=
  match d !! k with
  | Some v => Ok v
  | None => Raise (KeyError k)
  end.

(** [a & b]: [bool.__and__] answers for two bools, [int.__and__] for a mix
    of bool and int (a bool counts as 0 or 1); no other modelled type
    implements the operator. *)
Definition py_and (a b : pyval) : result pyval :=
  match a, b with
  | PBool x, PBool y => Ok (PBool (x && y))
  | PBool x, PInt y => Ok (PInt (Z.land (Z_of_bool x) y))
  | PInt x, PBool y => Ok (PInt (Z.land x (Z_of_bool y)))
  | PInt x, PInt y => Ok (PInt (Z.land x y))
  | _, _ => Raise (unsupported_operand "&" a b)
  end.

(** [a | b]: as [&], and two dicts merge with the right operand winning. *)
Definition py_or (a b : pyval) : result pyval :=
  match a, b with
  | PBool x, PBool y => Ok (PBool (x || y))
  | PBool x, PInt y => Ok (PInt (Z.lor (Z_of_bool x) y))
  | PInt x, PBool y => Ok (PInt (Z.lor x (Z_of_bool y)))
  | PInt x, PInt y => Ok (PInt (Z.lor x y))
  | PDict x, PDict y => Ok (PDict (y ∪ x))
  | _, _ => Raise (unsupported_operand "|" a b)
  end.

(** [v == s] for a [str] literal [s]: among the modelled types only a [str]
    with the same characters compares equal to a [str]; the comparison
    itself never raises. *)
Definition py_eq_str (v : pyval) (s : string) : bool :=
  match v with
  | PStr t => bool_decide (t = s)
  | _ => false
  end.

(** The operand of [**] in a dict display has to be a mapping. *)
Definition as_mapping (v : pyval) : result pydict :=
  match v with
  | PDict d => Ok d
  | _ => Raise (not_a_mapping (type_name v))
  end.

(** An argument annotated [dict = None]: [None] is Python's [None]. *)
Definition as_mapping_opt (v : option pydict) : result pydict :=
  match v with
  | Some d => Ok d
  | None => Raise (not_a_mapping (type_name PNone))
  end.

(** [d.update(e)]: the entries of [e] replace those of [d]. *)
Definition dict_update (d e : pydict) : pydict := e ∪ d.

End Py.

Import Py.

Notation "'try' x := c 'in' k" := (Py.bind c (fun x => k))
(at level 10, x name, c at level 100, k at level 200,
 format "'[v' 'try'  x  :=  c  'in' '/' k ']'").

(** ** Messages *)

Module Messaging.

(** Modelled from the spec: the types [Role] and [Message] that server.py
    imports from autogpt.core.messaging.simple, which is not among the
    sources.  The spec's data model gives the sender identity as a (name,
    role) pair with role in USER, AGENT, AGENT_FACTORY, the metadata as the
    sender plus an open mapping, and the message as content plus metadata;
    the attribute names are the ones server.py reads. *)
Inductive Role : Type := USER | AGENT | AGENT_FACTORY.

#[export] Instance Role_eq_dec : EqDecision Role.
Proof. solve_decision. Defined.

Record Sender : Type := {
  name : string;
  role : Role
}.

Record MessageMetadata : Type := {
  sender : Sender;
  additional_metadata : pydict
}.

Record Message : Type := {
  content : pydict;
  metadata : MessageMetadata
}.

(** [r == Role.X] on enum members. *)
Definition role_eq (r r' : Role) : pyval := PBool (bool_decide (r = r')).

End Messaging.

Import Messaging.

(** ** class MessageFilters *)

Module MessageFilters.

Definition is_user_message (message : Message) : result pyval :=
  let metadata := metadata message in
  Ok (role_eq (role (sender metadata)) USER).

Definition is_agent_message (message : Message) : result pyval :=
  let metadata := metadata message in
  Ok (role_eq (role (sender metadata)) AGENT).

Definition is_agent_factory_message (message : Message) : result pyval :=
  let metadata := metadata message in
  Ok (role_eq (role (sender metadata)) AGENT_FACTORY).

Definition is_server_message (message : Message) : result pyval :=
  try a := is_agent_message message in
  try b := is_agent_factory_message message in
  py_or a b.

(** Python gives [&] a higher precedence than [==], so the returned
    expression is [(is_user_message(message) & instruction) == literal];
    both operands of [&] are evaluated before it is applied. *)
Definition is_user_bootstrap_message (message : Message) : result pyval :=
  let metadata := metadata message in
  try a := is_user_message message in
  try instruction := getitem (additional_metadata metadata) "instruction" in
  try conj := py_and a instruction in
  Ok (PBool (py_eq_str conj "bootstrap_agent")).

Definition is_user_launch_message (message : Message) : result pyval :=
  let metadata := metadata message in
  try a := is_user_message message in
  try instruction := getitem (additional_metadata metadata) "instruction" in
  try conj := py_and a instruction in
  Ok (PBool (py_eq_str conj "launch_agent")).

End MessageFilters.

(** ** class FakeApplicationServer *)

Module FakeApplicationServer.

(** Addresses of list objects. *)
Abbreviation loc := positive.

(** What the server stores in attributes of a response: a plain value, a
    reference to a list of messages, or the dict [{"content": message}]. *)
Inductive attr_value : Type :=
| AttrVal (v : pyval)
| AttrList (l : loc)
| AttrContent (m : Message).

(** An instance and its attributes.  Instances of [object] itself have no
    instance dictionary: assigning any attribute raises AttributeError. *)
Record pyobject : Type := {
  has_dict : bool;
  attrs : gmap string attr_value
}.

(** [object()] *)
Definition object_new : pyobject := {| has_dict := false; attrs := ∅ |}.

(** [o.a = v] *)
Definition setattr (o : pyobject) (a : string) (v : attr_value) : result pyobject :=
  if has_dict o
  then Ok {| has_dict := true; attrs := <[a := v]> (attrs o) |}
  else Raise (AttributeError a).

(** The request handed to the server: [request.json] is a mapping. *)
Record Request : Type := { json : pydict }.

(** The dict display [{**x, **y}] of [_send_message]: [x] is the
    subscription [request.json[...]], [y] an argument that defaults to [None];
    both are unpacked, left to right, into a new dict. *)
Definition dict_display (x : result pyval) (y : option pydict) : result pydict :=
  try vx := x in
  try dx := as_mapping vx in
  try dy := as_mapping_opt y in
  Ok (dict_update (dict_update ∅ dx) dy).

Section Server.

(** State of the collaborators reached through the broker (agents, agent
    factory); the server never inspects it. *)
Context {Env : Type}.

(** [message_queue] is the class attribute [defaultdict(list)]: it binds sender
    names to list objects, whose contents live in [heap]. *)
Record state : Type := {
  message_queue : gmap string loc;
  heap : gmap loc (list Message);
  env : Env
}.

Definition set_message_queue (q : gmap string loc) (s : state) : state :=
  {| message_queue := q; heap := heap s; env := env s |}.

Definition set_heap (h : gmap loc (list Message)) (s : state) : state :=
  {| message_queue := message_queue s; heap := h; env := env s |}.

(** Computations of the server: they read and update the state and either
    return a value or raise; the state reached survives a raise. *)
Definition M (A : Type) : Type := state -> result A * state.

Definition ret {A} (a : A) : M A := fun s => (Ok a, s).

Definition raise {A} (e : exn) : M A := fun s => (Raise e, s).

Definition lift {A} (r : result A) : M A := fun s => (r, s).

Definition mbind {A B} (c : M A) (k : A -> M B) : M B := fun s =>
  match c s with
  | (Ok a, s') => k a s'
  | (Raise e, s') => (Raise e, s')
  end.

Notation "'run' x := c 'in' k" := (mbind c (fun x => k))
  (at level 10, x name, c at level 100, k at level 200).
Notation "'exec' c 'then' k" := (mbind c (fun _ => k))
  (at level 10, c at level 100, k at level 200).

(** [[]]: a new, empty list object. *)
Definition list_new : M loc := fun s =>
  let l := fresh (dom (heap s)) in
  (Ok l, set_heap (<[l := []]> (heap s)) s).

(** [l.append(m)] *)
Definition list_append (l : loc) (m : Message) : M unit := fun s =>
  (Ok tt, set_heap (alter (fun ms => ms ++ [m]) l (heap s)) s).

(** [l.pop()]: removes and returns the last item. *)
Definition list_pop (l : loc) : M Message := fun s =>
  match last (default [] (heap s !! l)) with
  | Some m =>
      (Ok m, set_heap (alter (fun ms => take (length ms - 1) ms) l (heap s)) s)
  | None => (Raise (IndexError "pop from empty list"), s)
  end.

(** [self.message_queue[k]]: the default factory binds a missing key to a new
    list before the lookup answers. *)
Definition queue_getitem (k : string) : M loc := fun s =>
  match message_queue s !! k with
  | Some l => (Ok l, s)
  | None =>
      (run l := list_new in
       fun s' => (Ok l, set_message_queue (<[k := l]> (message_queue s')) s')) s
  end.

(** [self.message_queue[k] = l] *)
Definition queue_setitem (k : string) (l : loc) : M unit := fun s =>
  (Ok tt, set_message_queue (<[k := l]> (message_queue s)) s).

(** [self._user_emitter.send_message(content, **metadata)]: the emitter of
    the broker, which server.py imports; it answers whether the message was
    sent and runs the listeners, so it may change the whole state. *)
Variable send_message : pydict -> pydict -> M bool.

(** [self._message_broker] *)
Variable message_broker : pyval.

Definition _add_to_queue (message : Message) : M unit :=
  run l := queue_getitem (name (sender (metadata message))) in
  list_append l message.

Definition _send_message (request : Request)
    (extra_content extra_metadata : option pydict) : M pyobject :=
  run content := lift (dict_display (getitem (json request) "content") extra_content) in
  run metadata := lift (dict_display (getitem (json request) "metadata") extra_metadata) in
  run success := send_message content metadata in
  let response := object_new in
  run response := (if success : bool
                   then lift (setattr response "status_code" (AttrVal (PInt 200)))
                   else lift (setattr response "status_code" (AttrVal (PInt 500)))) in
  ret response.

(** The three statements of [boostrap_new_agent] that follow the send. *)
Definition collate_agent_factory_responses (response : pyobject) : M pyobject :=
  run agent_factory_responses := queue_getitem "autogpt-agent-factory" in
  run empty := list_new in
  exec queue_setitem "autogpt-agent-factory" empty then
  run response := lift (setattr response "json" (AttrList agent_factory_responses)) in
  ret response.

Definition boostrap_new_agent (request : Request) : M pyobject :=
  run response := _send_message request
                    (Some {[ "message_broker" := message_broker ]})
                    (Some {[ "instruction" := PStr "bootstrap_agent" ]}) in
  collate_agent_factory_responses response.

Definition launch_agent (request : Request) : M pyobject :=
  _send_message request None None.

Definition give_agent_feedback (request : Request) : M unit :=
  run response := _send_message request None None in
  run l := queue_getitem "autogpt-agent" in
  run popped := list_pop l in
  run response := lift (setattr response "json" (AttrContent popped)) in
  ret tt.

(** The messages queued under a sender name, if the name is bound. *)
Definition queued (s : state) (k : string) : option (list Message) :=
  l ← message_queue s !! k; heap s !! l.

(** Every bound name holds an allocated list, and no two names share one:
    the default factory and [boostrap_new_agent] only ever bind new lists. *)
Definition queue_ok (s : state) : Prop :=
  (forall k l, message_queue s !! k = Some l -> is_Some (heap s !! l)) /\
  (forall k1 k2 l, message_queue s !! k1 = Some l ->
                   message_queue s !! k2 = Some l -> k1 = k2).

End Server.

Arguments state Env : clear implicits.
Arguments M Env A : clear implicits.

End FakeApplicationServer.

(** ** Channels and dispatch *)

Module Dispatch.

Inductive broker_error : Type :=
| DuplicateChannelError (channel : string)
| UnknownChannelError (channel : string).

(** Setup calls in sequence: the first error ends the setup. *)
Definition and_then {A B} (x : broker_error + A) (k : A -> broker_error + B)
    : broker_error + B :=
  match x with
  | inl err => inl err
  | inr a => k a
  end.

Section Channel.

(** The state on which listener callbacks act. *)
Context {World : Type}.

(** Modelled from the spec: the listener registration of
    autogpt.core.messaging.simple, which is not among the sources.  A filter
    is a pure predicate on the message; a callback is an arbitrary effectful
    function that succeeds ([None]) or fails with an error. *)
Record ListenerRegistration : Type := {
  filter : Message -> bool;
  callback : Message -> World -> option exn * World;
  registration_order : nat
}.

(** Modelled from the spec: a channel is a name and the ordered sequence of
    its registrations (the broker class itself is not among the sources). *)
Record Channel : Type := {
  channel_name : string;
  registrations : list ListenerRegistration
}.

(** Modelled from the spec: the broker owns the channels by name. *)
Record Broker : Type := {
  channels : gmap string Channel
}.

(** Modelled from the spec: [create_channel] inserts an empty channel and
    fails when the name exists. *)
Definition create_channel (name : string) (b : Broker) : broker_error + Broker :=
  match channels b !! name with
  | Some _ => inl (DuplicateChannelError name)
  | None =>
      inr {| channels :=
               <[name := {| channel_name := name; registrations := [] |}]> (channels b) |}
  end.

(** Modelled from the spec: [register_listener] appends a registration to the
    channel's sequence, numbered by its position, and fails when the channel
    does not exist. *)
Definition register_listener (channel : string)
    (cb : Message -> World -> option exn * World) (flt : Message -> bool)
    (b : Broker) : broker_error + Broker :=
  match channels b !! channel with
  | None => inl (UnknownChannelError channel)
  | Some c =>
      let r := {| filter := flt; callback := cb;
                  registration_order := length (registrations c) |} in
      inr {| channels :=
               <[channel := {| channel_name := channel_name c;
                               registrations := registrations c ++ [r] |}]>
                 (channels b) |}
  end.

(** Modelled from the spec: what [publish] reports: listeners evaluated,
    matched, succeeded and failed, the (registration, error) pairs of the
    failures, and the overall (transport) success. *)
Record DispatchResult : Type := {
  evaluated : nat;
  matched : nat;
  succeeded : nat;
  failed : nat;
  failures : list (ListenerRegistration * exn);
  success : bool
}.

(** A dispatch in progress.  [invoked] is a ghost log, in order, of every
    callback invocation of this dispatch with its outcome; the spec's
    properties about invocations are statements about it. *)
Record dispatch_state : Type := {
  report : DispatchResult;
  invoked : list (ListenerRegistration * option exn);
  world : World
}.

Definition count_evaluated (d : DispatchResult) : DispatchResult :=
  {| evaluated := S (evaluated d); matched := matched d;
     succeeded := succeeded d; failed := failed d;
     failures := failures d; success := success d |}.

Definition count_outcome (r : ListenerRegistration) (outcome : option exn)
    (d : DispatchResult) : DispatchResult :=
  match outcome with
  | None =>
      {| evaluated := evaluated d; matched := S (matched d);
         succeeded := S (succeeded d); failed := failed d;
         failures := failures d; success := success d |}
  | Some e =>
      {| evaluated := evaluated d; matched := S (matched d);
         succeeded := succeeded d; failed := S (failed d);
         failures := failures d ++ [(r, e)]; success := success d |}
  end.

(** Modelled from the spec: one step of the dispatch loop of [publish]: the
    filter of the registration is evaluated; when it holds the callback is
    invoked and awaited; a failure is caught and recorded, and the loop goes on. *)
Definition deliver (message : Message) (st : dispatch_state)
    (r : ListenerRegistration) : dispatch_state :=
  if filter r message then
    let '(outcome, w) := callback r message (world st) in
    {| report := count_outcome r outcome (count_evaluated (report st));
       invoked := invoked st ++ [(r, outcome)];
       world := w |}
  else
    {| report := count_evaluated (report st);
       invoked := invoked st;
       world := world st |}.

Definition dispatch_start (w : World) : dispatch_state :=
  {| report := {| evaluated := 0; matched := 0; succeeded := 0; failed := 0;
                  failures := []; success := true |};
     invoked := [];
     world := w |}.

(** Modelled from the spec: [publish] visits the registrations in
    registration order; its transport success does not depend on the
    outcomes of the listeners. *)
Definition publish (c : Channel) (message : Message) (w : World) : dispatch_state :=
  foldl (deliver message) (dispatch_start w) (registrations c).

(** The registrations whose filter accepts the message, in registration order. *)
Definition matching (message : Message) (regs : list ListenerRegistration)
    : list ListenerRegistration :=
  List.filter (fun r => filter r message) regs.

(** How often the dispatch invoked the callback of registration [r]. *)
Definition invocations (st : dispatch_state) (r : ListenerRegistration) : nat :=
  count_occ Nat.eq_dec (map (fun ev => registration_order (fst ev)) (invoked st))
            (registration_order r).

(** What ties the report of a dispatch to the invocations it has made. *)
Definition report_ok (st : dispatch_state) : Prop :=
  success (report st) = true /\
  matched (report st) = length (invoked st) /\
  failed (report st) = length (failures (report st)) /\
  succeeded (report st) + failed (report st) = matched (report st) /\
  (forall r e, (r, e) ∈ failures (report st) <-> (r, Some e) ∈ invoked st).

(** Registrations are numbered by their position in the channel. *)
Definition channel_ok (c : Channel) : Prop :=
  forall i r, registrations c !! i = Some r -> registration_order r = i.

Definition broker_ok (b : Broker) : Prop :=
  forall n c, channels b !! n = Some c -> channel_ok c.

End Channel.

Arguments ListenerRegistration World : clear implicits.
Arguments Channel World : clear implicits.
Arguments Broker World : clear implicits.
Arguments DispatchResult World : clear implicits.
Arguments dispatch_state World : clear implicits.

End Dispatch.

(** ** Sample messages *)

Definition message_from (sender_name : string) (sender_role : Role)
    (body extra : pydict) : Message :=
  {| content := body;
     metadata := {| sender := {| name := sender_name; role := sender_role |};
                    additional_metadata := extra |} |}.

(** What the user emitter sends for [boostrap_new_agent] and [launch_agent]. *)
Definition user_bootstrap_message : Message :=
  message_from "autogpt-user" USER ∅ {[ "instruction" := PStr "bootstrap_agent" ]}.

Definition user_launch_message : Message :=
  message_from "autogpt-user" USER ∅ {[ "instruction" := PStr "launch_agent" ]}.

(** A user message that carries no instruction. *)
Definition user_plain_message : Message :=
  message_from "autogpt-user" USER {[ "msg" := PStr "hi" ]} ∅.

Definition factory_message (n : Z) : Message :=
  message_from "autogpt-agent-factory" AGENT_FACTORY {[ "seq" := PInt n ]} ∅.

Definition agent_message (n : Z) : Message :=
  message_from "autogpt-agent" AGENT {[ "seq" := PInt n ]} ∅.

(** A channel built through the broker, with listeners that count their
    invocations in the world: the first one fails on every message. *)
Definition is_role (r : Role) (m : Message) : bool :=
  bool_decide (role (sender (metadata m)) = r).

Definition failing_callback (m : Message) (w : nat) : option exn * nat :=
  (Some (OtherError "listener failed"), S w).

Definition counting_callback (m : Message) (w : nat) : option exn * nat :=
  (None, S w).

Definition sample_broker : Dispatch.broker_error + Dispatch.Broker nat :=
  Dispatch.and_then
    (Dispatch.and_then
       (Dispatch.and_then
          (Dispatch.create_channel "autogpt" {| Dispatch.channels := ∅ |})
          (Dispatch.register_listener "autogpt" failing_callback (is_role USER)))
       (Dispatch.register_listener "autogpt" counting_callback (is_role AGENT)))
    (Dispatch.register_listener "autogpt" counting_callback (is_role USER)).

Definition listener_A : Dispatch.ListenerRegistration nat :=
  {| Dispatch.filter := is_role USER; Dispatch.callback := failing_callback;
     Dispatch.registration_order := 0 |}.

Definition listener_B : Dispatch.ListenerRegistration nat :=
  {| Dispatch.filter := is_role AGENT; Dispatch.callback := counting_callback;
     Dispatch.registration_order := 1 |}.

Definition listener_C : Dispatch.ListenerRegistration nat :=
  {| Dispatch.filter := is_role USER; Dispatch.callback := counting_callback;
     Dispatch.registration_order := 2 |}.

Definition sample_channel : Dispatch.Channel nat :=
  {| Dispatch.channel_name := "autogpt";
     Dispatch.registrations := [listener_A; listener_B; listener_C] |}.

(** A server whose emitter logs what it is asked to send and reports
    success, started on the empty queue. *)
Definition logging_emitter (content metadata : pydict)
    : FakeApplicationServer.M (list (pydict * pydict)) bool :=
  fun s =>
    (Ok true,
     {| FakeApplicationServer.message_queue := FakeApplicationServer.message_queue s;
        FakeApplicationServer.heap := FakeApplicationServer.heap s;
        FakeApplicationServer.env :=
          FakeApplicationServer.env s ++ [(content, metadata)] |}).

Definition empty_server {Env} (e : Env) : FakeApplicationServer.state Env :=
  {| FakeApplicationServer.message_queue := ∅;
     FakeApplicationServer.heap := ∅;
     FakeApplicationServer.env := e |}.

(** A request whose mappings collide with the extras of [boostrap_new_agent]. *)
Definition sample_request : FakeApplicationServer.Request :=
  {| FakeApplicationServer.json :=
       {[ "content" := PDict {[ "agent_name" := PStr "HelloBot";
                                "message_broker" := PNone ]};
          "metadata" := PDict {[ "instruction" := PStr "launch_agent";
                                 "trace" := PInt 7 ]} ]} |}.

(** [_send_message] with both extras given, on a request that has a
    [metadata] mapping and no [content]. *)
Definition send_on_request_without_content :=
  FakeApplicationServer._send_message logging_emitter
    {| FakeApplicationServer.json := {[ "metadata" := PDict ∅ ]} |}
    (Some {[ "message_broker" := PObject 1 ]})
    (Some {[ "instruction" := PStr "bootstrap_agent" ]})
    (empty_server []).

(** The queue after the factory, the agent and the factory again have
    answered. *)
Definition queued_server : FakeApplicationServer.state unit :=
  (FakeApplicationServer._add_to_queue (factory_message 2)
     (FakeApplicationServer._add_to_queue (agent_message 1)
        (FakeApplicationServer._add_to_queue (factory_message 1)
           (empty_server tt)).2).2).2.

(** The same deliveries on the server of the logging emitter. *)
Definition queued_logging_server
    : FakeApplicationServer.state (list (pydict * pydict)) :=
  (FakeApplicationServer._add_to_queue (factory_message 2)
     (FakeApplicationServer._add_to_queue (agent_message 1)
        (FakeApplicationServer._add_to_queue (factory_message 1)
           (empty_server [])).2).2).2.

(** A response object that, unlike [object()], takes attributes. *)
Definition open_response : FakeApplicationServer.pyobject :=
  {| FakeApplicationServer.has_dict := true;
     FakeApplicationServer.attrs := {[ "status_code" := FakeApplicationServer.AttrVal (PInt 200) ]} |}.

(** ** The collaborations of the queue *)

Module Mailbox.

Import FakeApplicationServer.

(** The broker hands every server message to the [_add_to_queue] listener,
    one after the other. *)
Fixpoint deliver_all {Env} (messages : list Message) (s : state Env) : state Env :=
  match messages with
  | [] => s
  | message :: rest => deliver_all rest (_add_to_queue message s).2
  end.

(** The messages of a sequence sent under a given sender name, in order. *)
Definition from_sender (k : string) (messages : list Message) : list Message :=
  List.filter (fun m => bool_decide (name (sender (metadata m)) = k)) messages.

(** The statements of [give_agent_feedback] that follow the send. *)
Definition collect_agent_feedback {Env} (response : pyobject) : M Env unit :=
  mbind (queue_getitem "autogpt-agent") (fun l =>
  mbind (list_pop l) (fun popped =>
  mbind (lift (setattr response "json" (AttrContent popped))) (fun response =>
  ret tt))).

(** A list object that is allocated and bound to no sender name. *)
Definition detached {Env} (s : state Env) (l : loc) : Prop :=
  is_Some (heap s !! l) /\ forall k, message_queue s !! k <> Some l.

End Mailbox.

(** ** Module-level functions and the HTTP handlers of server.py *)

Module Server.

(** What the module-level code raises: an exception of a built-in operation,
    the NameError of a global name that the module never binds, or the
    HTTPException of a handler. *)
Inductive failure : Type :=
| Builtin (e : exn)
| NameError (name : string)
| HTTPException (status_code : Z) (detail : string).

(** The line feed of a [\n] escape. *)
Definition LF : string := String (Ascii.ascii_of_nat 10) EmptyString.

Definition _get_workspace_path_from_agent_name (agent_name : string) : string :=
  "~/autogpt_workspace/" +:+ agent_name.

(** The names that server.py binds at its top level, by import, definition
    or assignment, in the order of the file. *)
Definition server_names : list string :=
  [ "uuid"; "defaultdict"; "Any"; "Dict"; "List"; "Optional"; "APIRouter";
    "FastAPI"; "HTTPException"; "Request"; "BaseModel"; "Message"; "Role";
    "SimpleMessageBroker"; "agent_context"; "agent_factory_context";
    "MessageFilters"; "FakeApplicationServer"; "application_server";
    "_get_workspace_path_from_agent_name"; "launch_agent"; "router";
    "CreateAgentRequestBody"; "CreateAgentResponseBody"; "create_agent";
    "InteractRequestBody"; "Command"; "Thoughts"; "AssistantReply";
    "InteractResponseBody"; "interact"; "AiConfig"; "ListAgentsItem";
    "ListAgentsResponseBody"; "list_agents"; "InteractHistoryItem";
    "InteractHistoryResponseBody"; "interact_history"; "app" ].

(** The namespace of the module once it is loaded: every name above is
    bound to an object of its own. *)
Definition server_globals : gmap string pyval :=
  list_to_map (imap (fun i n => (n, PObject (Pos.of_succ_nat i))) server_names).

Section LaunchAgent.

(** [str(v)] for the values that are not a [str]; formatting a modelled value
    never raises. *)
Variable str_of : pyval -> string.

(** What [Agent.from_workspace(workspace_path, message_broker)] followed by
    [agent.run()] does once the name [Agent] has been resolved to a class;
    the class is not among the sources. *)
Variable run_agent : pyval -> string -> pyval -> failure + unit.

(** The namespaces in which the body resolves its global names: the globals
    of the module, then the built-in names. *)
Variables globals builtins : gmap string pyval.

(** Loading a global name: the module's globals first, the built-ins next,
    NameError when neither binds it. *)
Definition load_global (name : string) : failure + pyval :=
  match globals !! name with
  | Some v => inr v
  | None =>
      match builtins !! name with
      | Some v => inr v
      | None => inl (NameError name)
      end
  end.

(** The replacement field [{v}] of an f-string. *)
Definition format_value (v : pyval) : string :=
  match v with
  | PStr s => s
  | _ => str_of v
  end.

Definition launch_agent (message : Message) : failure + unit :=
  let message_content := content message in
  match getitem message_content "message_broker" with
  | Raise e => inl (Builtin e)
  | Ok message_broker =>
      match getitem message_content "agent_name" with
      | Raise e => inl (Builtin e)
      | Ok agent_name =>
          match load_global "_get_workspace_path_from_agent_name" with
          | inl f => inl f
          | inr _ =>
              let workspace_path :=
                _get_workspace_path_from_agent_name (format_value agent_name) in
              match load_global "Agent" with
              | inl f => inl f
              | inr agent_class => run_agent agent_class workspace_path message_broker
              end
          end
      end
  end.

End LaunchAgent.

(** The declared models: the type of a field is [str], [int], [List[t]],
    [Dict[str, t]], a union, [Optional[t]] or another model. *)
Inductive field_type : Type :=
| TStr
| TInt
| TList (t : field_type)
| TDict (t : field_type)
| TUnion (a b : field_type)
| TOptional (t : field_type)
| TModel (fields : list (string * field_type)).

Definition CreateAgentResponseBody : field_type :=
  TModel [("agent_id", TStr)].

Definition Command : field_type :=
  TModel [("name", TStr); ("args", TDict TStr)].

Definition Thoughts : field_type :=
  TModel [("text", TStr); ("reasoning", TStr); ("plan", TUnion (TList TStr) TStr);
          ("criticism", TStr); ("speak", TStr)].

Definition AssistantReply : field_type :=
  TModel [("thoughts", TOptional Thoughts); ("command", TOptional Command)].

Definition InteractResponseBody : field_type :=
  TModel [("result", TOptional (TUnion TStr (TList TStr)));
          ("assistant", AssistantReply)].

Definition AiConfig : field_type :=
  TModel [("ai_name", TStr); ("ai_role", TStr); ("ai_goals", TList TStr)].

Definition ListAgentsItem : field_type :=
  TModel [("agent_id", TStr); ("ai_config", AiConfig); ("status", TStr);
          ("created_at", TInt); ("updated_at", TInt)].

Definition ListAgentsResponseBody : field_type :=
  TModel [("agents", TList ListAgentsItem)].

Definition InteractHistoryItem : field_type :=
  TModel [("created_at", TInt); ("response", InteractResponseBody)].

Definition InteractHistoryResponseBody : field_type :=
  TModel [("history", TList InteractHistoryItem)].

(** A value carries a declared type when every declared field is present and
    holds a value of its declared type (a [str] for [str], an [int] for
    [int], and so on; [None] only under [Optional]); keys that are not
    declared do not matter. *)
Fixpoint carries (t : field_type) (v : pyval) {struct t} : bool :=
  match t with
  | TStr => match v with PStr _ => true | _ => false end
  | TInt => match v with PInt _ => true | _ => false end
  | TList t' =>
      match v with
      | PList l => forallb (carries t') l
      | _ => false
      end
  | TDict t' =>
      match v with
      | PDict d => forallb (fun kv => carries t' kv.2) (map_to_list d)
      | _ => false
      end
  | TUnion a b => carries a v || carries b v
  | TOptional t' =>
      match v with
      | PNone => true
      | _ => carries t' v
      end
  | TModel fields =>
      match v with
      | PDict d =>
          (fix all_fields (fs : list (string * field_type)) : bool :=
             match fs with
             | [] => true
             | (k, t') :: fs' =>
                 match d !! k with
                 | Some x => carries t' x
                 | None => false
                 end && all_fields fs'
             end) fields
      | _ => false
      end
  end.

(** The request of a handler: the header list as the server passes it on,
    with header names in lower case. *)
Record Request : Type := { headers : list (string * string) }.

(** [request.headers.get(key)]: the value of the first header of that name,
    or [None]. *)
Fixpoint headers_get (hs : list (string * string)) (key : string) : option string :=
  match hs with
  | [] => None
  | (k, v) :: rest => if bool_decide (k = key) then Some v else headers_get rest key
  end.

(** [not api_key] for [None] or a [str]. *)
Definition py_not (api_key : option string) : bool :=
  match api_key with
  | None => true
  | Some s => bool_decide (s = "")
  end.

Record CreateAgentRequestBody : Type := {
  ai_name : string;
  ai_role : string;
  ai_goals : list string
}.

Record InteractRequestBody : Type := { user_input : option string }.

(** [uuid4_hex] is the text that [uuid.uuid4().hex] yields in this call. *)
Definition create_agent (request : Request) (body : CreateAgentRequestBody)
    (uuid4_hex : string) : failure + pyval :=
  let api_key := headers_get (headers request) "openai_api_key" in
  if py_not api_key then
    inl (HTTPException 401 "missing openai_api_key header key")
  else
    let agent_id := uuid4_hex in
    inr (PDict {[ "agent_id" := PStr agent_id ]}).

Definition interact (request : Request) (agent_id : string) (body : InteractRequestBody) : failure + pyval :=
  let api_key := headers_get (headers request) "openai_api_key" in
  if py_not api_key then
    inl (HTTPException 401 "missing openai_api_key header key")
  else
    inr
  (PDict
    {[ "result" :=
        PStr "Command write_to_file returned: File written to successfully.";
       "assistant" :=
        PDict
          {[ "thoughts" :=
              PDict
                {[ "text" :=
                    PStr "My goal has been achieved, so I will use the 'task_complete' command to shut down.";
                   "reasoning" :=
                    PStr "Since my goal has been achieved, there is no need to perform any further actions.";
                   "plan" :=
                    PStr "- Use 'task_complete' command to shut down";
                   "criticism" :=
                    PStr "I did not consider any alternative plans or potential issues that may arise.";
                   "speak" :=
                    PStr "I have completed my task and will now shut down." ]};
             "command" :=
              PDict
                {[ "name" :=
                    PStr "task_complete";
                   "args" :=
                    PDict
                      {[ "reason" :=
                          PStr "Message has been written to file." ]} ]} ]} ]}).

Definition list_agents (request : Request) : failure + pyval :=
  inr
  (PDict
    {[ "agents" :=
        PList
          [ PDict
            {[ "agent_id" :=
                PStr "b50932f1da8148a092736066b4cdc432";
               "ai_config" :=
                PDict
                  {[ "ai_name" :=
                      PStr "HelloBot";
                     "ai_role" :=
                      PStr "An AI that says 'Hello, World!'";
                     "ai_goals" :=
                      PList
                        [ PStr "Write your message in a file called 'message.txt'.";
                          PStr "Shut down." ] ]};
               "status" :=
                PStr "completed";
               "created_at" :=
                PInt 1684173110491;
               "updated_at" :=
                PInt 1684173468437 ]};
            PDict
            {[ "agent_id" :=
                PStr "1b0a56f805d244118117dd55e89022f9";
               "ai_config" :=
                PDict
                  {[ "ai_name" :=
                      PStr "HelloBot";
                     "ai_role" :=
                      PStr "An AI that says 'Hello, World!'";
                     "ai_goals" :=
                      PList
                        [ PStr "Write your message in a file called 'message.txt'.";
                          PStr "Shut down." ] ]};
               "status" :=
                PStr "active";
               "created_at" :=
                PInt 1684030923958;
               "updated_at" :=
                PInt 1684030940859 ]};
            PDict
            {[ "agent_id" :=
                PStr "76ec74bf16544ba3a115258f6d52b7c5";
               "ai_config" :=
                PDict
                  {[ "ai_name" :=
                      PStr "HelloBot";
                     "ai_role" :=
                      PStr "An AI that says 'Hello, World!'";
                     "ai_goals" :=
                      PList
                        [ PStr "Write your message in a file called 'message.txt'.";
                          PStr "Shut down." ] ]};
               "status" :=
                PStr "active";
               "created_at" :=
                PInt 1683987345020;
               "updated_at" :=
                PInt 1683987368569 ]};
            PDict
            {[ "agent_id" :=
                PStr "7c37ca1bf65b4bf5a00b43ed5612e2d4";
               "ai_config" :=
                PDict
                  {[ "ai_name" :=
                      PStr "HelloBot";
                     "ai_role" :=
                      PStr "An AI that says 'Hello, World!'";
                     "ai_goals" :=
                      PList
                        [ PStr "Write your message in a file called 'message.txt'.";
                          PStr "Shut down." ] ]};
               "status" :=
                PStr "active";
               "created_at" :=
                PInt 1683949058448;
               "updated_at" :=
                PInt 1683949111032 ]};
            PDict
            {[ "agent_id" :=
                PStr "0790ab86ad9f4271be4fce0ed6e05dbb";
               "ai_config" :=
                PDict
                  {[ "ai_name" :=
                      PStr "HelloBot";
                     "ai_role" :=
                      PStr "An AI that says 'Hello, World!'";
                     "ai_goals" :=
                      PList
                        [ PStr "Write your message in a file called 'message.txt'.";
                          PStr "Shut down." ] ]};
               "status" :=
                PStr "completed";
               "created_at" :=
                PInt 1683748119231;
               "updated_at" :=
                PInt 1683748158216 ]} ] ]}).

Definition interact_history (request : Request) (agent_id : string) : failure + pyval :=
  inr
  (PDict
    {[ "history" :=
        PList
          [ PDict
            {[ "created_at" :=
                PInt 1684173128860;
               "response" :=
                PDict
                  {[ "result" :=
                      PNone;
                     "assistant" :=
                      PDict
                        {[ "thoughts" :=
                            PDict
                              {[ "text" :=
                                  PStr "My goal is to write a message to a file called 'message.txt' and then shut down. The simplest way to achieve this is to use the 'write_to_file' command to write the message and then use the 'task_complete' command to shut down. I will proceed with this plan.";
                                 "speak" :=
                                  PStr "I will write the message to a file and then shut down.";
                                 "plan" :=
                                  PStr ("- Use 'write_to_file' command to write message to 'message.txt'" +:+ LF +:+ "- Use 'task_complete' command to shut down");
                                 "criticism" :=
                                  PStr "I did not consider any alternative plans or potential issues that may arise.";
                                 "reasoning" :=
                                  PStr "I have analyzed my goal and determined the most efficient way to achieve it." ]};
                           "command" :=
                            PDict
                              {[ "args" :=
                                  PDict
                                    {[ "text" :=
                                        PStr "Hello, World!";
                                       "file" :=
                                        PStr "message.txt" ]};
                                 "name" :=
                                  PStr "write_to_file" ]} ]} ]} ]};
            PDict
            {[ "created_at" :=
                PInt 1684173321180;
               "response" :=
                PDict
                  {[ "result" :=
                      PStr "Command write_to_file returned: File written to successfully.";
                     "assistant" :=
                      PDict
                        {[ "thoughts" :=
                            PDict
                              {[ "text" :=
                                  PStr "My goal has been achieved, so I will use the 'task_complete' command to shut down.";
                                 "speak" :=
                                  PStr "I have completed my task and will now shut down.";
                                 "plan" :=
                                  PStr "- Use 'task_complete' command to shut down";
                                 "criticism" :=
                                  PStr "I did not consider any alternative plans or potential issues that may arise.";
                                 "reasoning" :=
                                  PStr "Since my goal has been achieved, there is no need to perform any further actions." ]};
                           "command" :=
                            PDict
                              {[ "args" :=
                                  PDict
                                    {[ "reason" :=
                                        PStr "Message has been written to file." ]};
                                 "name" :=
                                  PStr "task_complete" ]} ]} ]} ]};
            PDict
            {[ "created_at" :=
                PInt 1684173468819;
               "response" :=
                PDict
                  {[ "result" :=
                      PStr "Shutting down.";
                     "assistant" :=
                      PDict
                        {[ "thoughts" :=
                            PNone;
                           "command" :=
                            PNone ]} ]} ]} ] ]}).

(** What both checking handlers raise. *)
Definition missing_api_key : failure :=
  HTTPException 401 "missing openai_api_key header key".

End Server.

(** * Properties *)

(** ** The filters *)

Section Filters.

Import MessageFilters.

Implicit Types (m : Message) (b : bool).

Lemma role_eq_true (r r' : Role) : role_eq r r' = PBool true <-> r = r'.
Proof.
  unfold role_eq. split.
  - intros H. injection H as H. by apply bool_decide_eq_true in H.
  - intros ->. by rewrite bool_decide_eq_true_2.
Qed.

(** C7: each base role predicate returns a boolean, and returns true exactly
    when the role of the message's sender is the role of the predicate:
    USER for [is_user_message], AGENT for [is_agent_message], AGENT_FACTORY
    for [is_agent_factory_message]. *)
Theorem role_predicates_spec m :
  (exists b, is_user_message m = Ok (PBool b) /\
             (b = true <-> role (sender (metadata m)) = USER)) /\
  (exists b, is_agent_message m = Ok (PBool b) /\
             (b = true <-> role (sender (metadata m)) = AGENT)) /\
  (exists b, is_agent_factory_message m = Ok (PBool b) /\
             (b = true <-> role (sender (metadata m)) = AGENT_FACTORY)).
Proof.
  unfold is_user_message, is_agent_message, is_agent_factory_message, role_eq.
  repeat split; eexists; (split; [reflexivity | apply bool_decide_eq_true]).
Qed.

(** C6: [is_server_message] returns a boolean, which is true exactly when the
    sender's role is AGENT or AGENT_FACTORY, that is, exactly when one of the
    two role predicates returns true. *)
Theorem is_server_message_spec m :
  (exists b, is_server_message m = Ok (PBool b)) /\
  (is_server_message m = Ok (PBool true) <->
     role (sender (metadata m)) = AGENT \/
     role (sender (metadata m)) = AGENT_FACTORY) /\
  (is_server_message m = Ok (PBool true) <->
     is_agent_message m = Ok (PBool true) \/
     is_agent_factory_message m = Ok (PBool true)).
Proof.
  unfold is_server_message, is_agent_message, is_agent_factory_message, role_eq.
  destruct (role (sender (metadata m))); cbn.
  all: split; [by eexists |].
  all: split; split; intros H; try done; try (by left); try (by right).
  all: destruct H as [H | H]; done.
Qed.

(** The instruction filters as a function of the instruction found. *)
Lemma instruction_filter_cases m :
  is_user_bootstrap_message m =
    match additional_metadata (metadata m) !! "instruction" with
    | None => Raise (KeyError "instruction")
    | Some v =>
        try conj := py_and (role_eq (role (sender (metadata m))) USER) v in
        Ok (PBool (py_eq_str conj "bootstrap_agent"))
    end /\
  is_user_launch_message m =
    match additional_metadata (metadata m) !! "instruction" with
    | None => Raise (KeyError "instruction")
    | Some v =>
        try conj := py_and (role_eq (role (sender (metadata m))) USER) v in
        Ok (PBool (py_eq_str conj "launch_agent"))
    end.
Proof.
  unfold is_user_bootstrap_message, is_user_launch_message, is_user_message, getitem.
  cbn. by destruct (additional_metadata (metadata m) !! "instruction").
Qed.

(** [bool & x] is never a [str], so comparing it with a [str] is false. *)
Lemma py_and_bool_not_str b (v conj : pyval) (s : string) :
  py_and (PBool b) v = Ok conj -> py_eq_str conj s = false.
Proof.
  destruct v; cbn; intros H; try discriminate; by injection H as <-.
Qed.

(** No message of the model makes an instruction filter return true. *)
Lemma instruction_filters_never_true m :
  is_user_bootstrap_message m <> Ok (PBool true) /\
  is_user_launch_message m <> Ok (PBool true).
Proof.
  destruct (instruction_filter_cases m) as [-> ->].
  destruct (additional_metadata (metadata m) !! "instruction") as [v|]; [| done].
  unfold role_eq.
  destruct (py_and (PBool (bool_decide (role (sender (metadata m)) = USER))) v)
    as [conj|e] eqn:E; cbn; [| done].
  by rewrite !(py_and_bool_not_str _ _ _ _ E).
Qed.

(** C1: on the message the user emitter sends to bootstrap an agent (role
    USER, instruction [bootstrap_agent]) [is_user_bootstrap_message] does not
    return true: applying [&] to a bool and a str raises TypeError.  The same
    holds for [is_user_launch_message] on the launch message. *)
Theorem user_instruction_filters_raise :
  role (sender (metadata user_bootstrap_message)) = USER /\
  additional_metadata (metadata user_bootstrap_message) !! "instruction"
    = Some (PStr "bootstrap_agent") /\
  is_user_bootstrap_message user_bootstrap_message
    = Raise (TypeError "unsupported operand type(s) for &: 'bool' and 'str'") /\
  role (sender (metadata user_launch_message)) = USER /\
  additional_metadata (metadata user_launch_message) !! "instruction"
    = Some (PStr "launch_agent") /\
  is_user_launch_message user_launch_message
    = Raise (TypeError "unsupported operand type(s) for &: 'bool' and 'str'").
Proof. repeat split; vm_compute; reflexivity. Qed.

(** C2, as stated, fails: a user message without the [instruction] key makes
    the instruction filters raise KeyError; they do not evaluate to false. *)
Lemma instruction_filters_not_total :
  additional_metadata (metadata user_plain_message) !! "instruction" = None /\
  is_user_bootstrap_message user_plain_message = Raise (KeyError "instruction") /\
  is_user_launch_message user_plain_message = Raise (KeyError "instruction") /\
  ~ (forall m, additional_metadata (metadata m) !! "instruction" = None ->
               is_user_bootstrap_message m = Ok (PBool false)).
Proof.
  split; [done |]. split; [done |]. split; [done |].
  intros H. specialize (H user_plain_message eq_refl). discriminate H.
Qed.

(** C2, amended: the four role-based predicates are total, they return a
    boolean on every message and never raise; the two instruction-based
    predicates raise KeyError when the [instruction] key is absent from the
    additional metadata. *)
Theorem filter_totality m :
  (exists b, is_user_message m = Ok (PBool b)) /\
  (exists b, is_agent_message m = Ok (PBool b)) /\
  (exists b, is_agent_factory_message m = Ok (PBool b)) /\
  (exists b, is_server_message m = Ok (PBool b)) /\
  (additional_metadata (metadata m) !! "instruction" = None ->
   is_user_bootstrap_message m = Raise (KeyError "instruction") /\
   is_user_launch_message m = Raise (KeyError "instruction")).
Proof.
  split; [by eexists |]. split; [by eexists |]. split; [by eexists |]. split.
  - unfold is_server_message, is_agent_message, is_agent_factory_message, role_eq.
    cbn. by eexists.
  - intros Hnone. destruct (instruction_filter_cases m) as [-> ->].
    by rewrite Hnone.
Qed.

Lemma filter_totality_witness :
  additional_metadata (metadata user_plain_message) !! "instruction" = None /\
  MessageFilters.is_user_bootstrap_message user_plain_message
    = Raise (KeyError "instruction") /\
  MessageFilters.is_user_launch_message user_plain_message
    = Raise (KeyError "instruction").
Proof.
  split; [reflexivity |].
  apply (filter_totality user_plain_message). reflexivity.
Defined.

End Filters.

(** ** The application server: sending *)

Section Sending.

Import FakeApplicationServer.

Context {Env : Type}.
Variable send_message : pydict -> pydict -> M Env bool.
Variable message_broker : pyval.

Implicit Types (request : Request) (s : state Env).

(** A dict display over a mapping of the request and an extra mapping. *)
Lemma dict_display_mappings (j r e : pydict) (k : string) :
  j !! k = Some (PDict r) ->
  dict_display (getitem j k) (Some e) = Ok (e ∪ r).
Proof.
  intros Hk. unfold dict_display, getitem, dict_update. rewrite Hk. cbn.
  by rewrite (right_id_L ∅ (∪) r).
Qed.

(** A dict display with [None] for the extras raises. *)
Lemma dict_display_none (x : result pyval) : exists e, dict_display x None = Raise e.
Proof.
  unfold dict_display. destruct x as [v|e]; cbn; [| by eexists].
  destruct (as_mapping v); cbn; by eexists.
Qed.

(** [_send_message], statement by statement: the two merges, the send, and
    the assignment to an attribute of a bare [object()]. *)
Lemma send_message_steps request extra_content extra_metadata s :
  _send_message send_message request extra_content extra_metadata s =
    match dict_display (getitem (json request) "content") extra_content with
    | Raise e => (Raise e, s)
    | Ok content =>
        match dict_display (getitem (json request) "metadata") extra_metadata with
        | Raise e => (Raise e, s)
        | Ok metadata =>
            match send_message content metadata s with
            | (Ok _, s') => (Raise (AttributeError "status_code"), s')
            | (Raise e, s') => (Raise e, s')
            end
        end
    end.
Proof.
  unfold _send_message, mbind, lift, ret.
  destruct (dict_display (getitem (json request) "content") extra_content)
    as [content|e]; [| done].
  destruct (dict_display (getitem (json request) "metadata") extra_metadata)
    as [metadata|e]; [| done].
  destruct (send_message content metadata s) as [[[|]|e] s']; done.
Qed.

(** C5: when the request carries mappings under [content] and [metadata] and
    both extras are given, the emitter is called with merged mappings in
    which every key of the extras has the extras' value, also when the
    request supplies the key too; the other keys keep the request's value. *)
Theorem send_message_extras_take_precedence request (rc rm ec em : pydict) s :
  json request !! "content" = Some (PDict rc) ->
  json request !! "metadata" = Some (PDict rm) ->
  exists content metadata : pydict,
    (forall k v, ec !! k = Some v -> content !! k = Some v) /\
    (forall k, ec !! k = None -> content !! k = rc !! k) /\
    (forall k v, em !! k = Some v -> metadata !! k = Some v) /\
    (forall k, em !! k = None -> metadata !! k = rm !! k) /\
    _send_message send_message request (Some ec) (Some em) s =
      match send_message content metadata s with
      | (Ok _, s') => (Raise (AttributeError "status_code"), s')
      | (Raise e, s') => (Raise e, s')
      end.
Proof.
  intros Hc Hm. exists (ec ∪ rc), (em ∪ rm).
  split; [intros k v; apply lookup_union_Some_l |].
  split; [intros k; apply lookup_union_r |].
  split; [intros k v; apply lookup_union_Some_l |].
  split; [intros k; apply lookup_union_r |].
  rewrite send_message_steps.
  by rewrite (dict_display_mappings _ _ _ _ Hc), (dict_display_mappings _ _ _ _ Hm).
Qed.

(** A dict display raises when the request has no mapping under the key. *)
Lemma dict_display_no_mapping (j : pydict) (k : string) (y : option pydict) :
  (forall r, j !! k <> Some (PDict r)) ->
  exists e, dict_display (getitem j k) y = Raise e.
Proof.
  intros Hk. unfold dict_display, getitem.
  destruct (j !! k) as [v|]; cbn; [| by eexists].
  destruct v; cbn; try (by eexists). by destruct (Hk d).
Qed.

(** C9, amended: [_send_message] raises on every input and never returns a
    response.  With an extra left at [None] a dict merge raises and nothing
    is sent (the state is the initial one and the exception is that of the
    merge).  With both extras given: when the request lacks a mapping under
    [content] or under [metadata], a merge raises as well and nothing is
    sent; when the emitter raises, its exception propagates; and when the
    request carries both mappings and the emitter returns, the assignment to
    [status_code] raises AttributeError in the state the send has produced. *)
Theorem send_message_always_raises request extra_content extra_metadata s :
  (exists e s',
     _send_message send_message request extra_content extra_metadata s
       = (Raise e, s')) /\
  (extra_content = None \/ extra_metadata = None ->
   exists e,
     _send_message send_message request extra_content extra_metadata s
       = (Raise e, s) /\
     (dict_display (getitem (json request) "content") extra_content = Raise e \/
      dict_display (getitem (json request) "metadata") extra_metadata = Raise e)) /\
  ((forall rc, json request !! "content" <> Some (PDict rc)) \/
   (forall rm, json request !! "metadata" <> Some (PDict rm)) ->
   exists e,
     _send_message send_message request extra_content extra_metadata s
       = (Raise e, s) /\
     (dict_display (getitem (json request) "content") extra_content = Raise e \/
      dict_display (getitem (json request) "metadata") extra_metadata = Raise e)) /\
  (forall (rc rm ec em : pydict) e s',
     extra_content = Some ec -> extra_metadata = Some em ->
     json request !! "content" = Some (PDict rc) ->
     json request !! "metadata" = Some (PDict rm) ->
     send_message (ec ∪ rc) (em ∪ rm) s = (Raise e, s') ->
     _send_message send_message request extra_content extra_metadata s
       = (Raise e, s')) /\
  (forall (rc rm ec em : pydict) (sent : bool) s',
     extra_content = Some ec -> extra_metadata = Some em ->
     json request !! "content" = Some (PDict rc) ->
     json request !! "metadata" = Some (PDict rm) ->
     send_message (ec ∪ rc) (em ∪ rm) s = (Ok sent, s') ->
     _send_message send_message request extra_content extra_metadata s
       = (Raise (AttributeError "status_code"), s')).
Proof.
  rewrite send_message_steps. split; [| split; [| split; [| split]]].
  - destruct (dict_display _ extra_content) as [content|e]; [| by eauto].
    destruct (dict_display _ extra_metadata) as [metadata|e]; [| by eauto].
    destruct (send_message content metadata s) as [[sent|e] s']; by eauto.
  - intros [-> | ->].
    + destruct (dict_display_none (getitem (json request) "content")) as [e He].
      rewrite He. eauto.
    + destruct (dict_display_none (getitem (json request) "metadata")) as [e He].
      rewrite He.
      destruct (dict_display _ extra_content) as [content|e']; eauto.
  - intros [Hc | Hm].
    + destruct (dict_display_no_mapping _ _ extra_content Hc) as [e He].
      rewrite He. eauto.
    + destruct (dict_display_no_mapping _ _ extra_metadata Hm) as [e He].
      rewrite He.
      destruct (dict_display _ extra_content) as [content|e']; eauto.
  - intros rc rm ec em e s' -> -> Hc Hm Hsend.
    rewrite (dict_display_mappings _ _ _ _ Hc), (dict_display_mappings _ _ _ _ Hm).
    by rewrite Hsend.
  - intros rc rm ec em sent s' -> -> Hc Hm Hsend.
    rewrite (dict_display_mappings _ _ _ _ Hc), (dict_display_mappings _ _ _ _ Hm).
    by rewrite Hsend.
Qed.

(** [launch_agent] and [give_agent_feedback] leave both extras at [None]:
    on a request with a [content] mapping they raise the TypeError of the
    first merge, and no message is sent. *)
Lemma launch_agent_raises request (rc : pydict) s :
  json request !! "content" = Some (PDict rc) ->
  launch_agent send_message request s
    = (Raise (TypeError "'NoneType' object is not a mapping"), s) /\
  give_agent_feedback send_message request s
    = (Raise (TypeError "'NoneType' object is not a mapping"), s).
Proof.
  intros Hc. unfold give_agent_feedback, launch_agent, mbind.
  rewrite send_message_steps. unfold dict_display, getitem. by rewrite Hc.
Qed.

(** [boostrap_new_agent] never gets past its call of [_send_message]. *)
Lemma boostrap_new_agent_raises request s :
  exists e s',
    boostrap_new_agent send_message message_broker request s = (Raise e, s').
Proof.
  unfold boostrap_new_agent, mbind. rewrite send_message_steps.
  destruct (dict_display _ _) as [content|e]; [| by eauto].
  destruct (dict_display _ _) as [metadata|e]; [| by eauto].
  destruct (send_message content metadata s) as [[sent|e] s']; by eauto.
Qed.

End Sending.

(** C9, as stated, fails: with both extras given and a request without
    [content], [_send_message] raises KeyError before anything is sent (the
    log of the emitter stays empty); the failure is not the assignment to
    [status_code] after a send. *)
Lemma extras_given_raise_before_send :
  send_on_request_without_content
    = (Raise (KeyError "content"), empty_server []) /\
  FakeApplicationServer.env (send_on_request_without_content).2 = [] /\
  ~ (exists s',
       send_on_request_without_content
         = (Raise (AttributeError "status_code"), s')).
Proof.
  split; [reflexivity |]. split; [reflexivity |].
  intros [s' Hs']. discriminate Hs'.
Qed.

(** ** The application server: the message queue *)

Section Queue.

Import FakeApplicationServer.

Context {Env : Type}.

Implicit Types (s : state Env) (k : string) (l : loc).

Lemma fresh_not_allocated s : heap s !! fresh (dom (heap s)) = None.
Proof. apply not_elem_of_dom, is_fresh. Qed.

Lemma bound_not_fresh s k l :
  queue_ok s -> message_queue s !! k = Some l -> l <> fresh (dom (heap s)).
Proof.
  intros [Halloc _] Hk ->. destruct (Halloc _ _ Hk) as [ms Hms].
  by rewrite fresh_not_allocated in Hms.
Qed.

(** The empty [defaultdict] satisfies the invariant. *)
Lemma queue_ok_empty (e : Env) : queue_ok (empty_server e).
Proof. split; cbn; [intros k l | intros k1 k2 l]; by rewrite lookup_empty. Qed.

(** Binding a name to a newly allocated list keeps the invariant, leaves the
    queues of all other names as they were and never touches a list that was
    allocated before. *)
Lemma bind_new_list s k :
  queue_ok s ->
  let l := fresh (dom (heap s)) in
  let s' := set_message_queue (<[k := l]> (message_queue s))
              (set_heap (<[l := []]> (heap s)) s) in
  queue_ok s' /\
  queued s' k = Some [] /\
  (forall k', k' <> k -> queued s' k' = queued s k') /\
  (forall l', is_Some (heap s !! l') -> heap s' !! l' = heap s !! l') /\
  (forall k', message_queue s' !! k' = Some l -> k' = k).
Proof.
  intros Hok l s'. pose proof Hok as [Halloc Hinj].
  assert (Hother : forall k' l', k' <> k ->
            message_queue s !! k' = Some l' -> l' <> l).
  { intros k' l' _ Hk'. by eapply bound_not_fresh. }
  assert (Hown : forall k', message_queue s' !! k' = Some l -> k' = k).
  { intros k'. cbn. destruct (decide (k = k')) as [<- | Hne]; [done |].
    rewrite lookup_insert_ne by done. intros Hk'.
    by destruct (Hother k' l (not_eq_sym Hne) Hk'). }
  split; [split |]; [| | split; [| split; [| split]]].
  - intros k' l'. cbn. destruct (decide (k = k')) as [<- | Hne].
    + rewrite lookup_insert_eq. intros [= <-]. by rewrite lookup_insert_eq.
    + rewrite lookup_insert_ne by done. intros Hk'.
      rewrite lookup_insert_ne; [by eapply Halloc |].
      intros <-. by eapply Hother.
  - intros k1 k2 l'. cbn.
    destruct (decide (k = k1)) as [<- | Hne1], (decide (k = k2)) as [<- | Hne2];
      rewrite ?lookup_insert_eq, ?lookup_insert_ne by done; try done.
    + intros [= <-] Hk2. by destruct (Hother k2 l (not_eq_sym Hne2) Hk2).
    + intros Hk1 [= <-]. by destruct (Hother k1 l (not_eq_sym Hne1) Hk1).
    + apply Hinj.
  - unfold queued. cbn. by rewrite lookup_insert_eq; cbn; rewrite lookup_insert_eq.
  - intros k' Hne. unfold queued. cbn. rewrite lookup_insert_ne by done.
    destruct (message_queue s !! k') as [l'|] eqn:Hk'; cbn; [| done].
    rewrite lookup_insert_ne; [done |]. intros <-. by eapply Hother.
  - intros l' [ms Hms]. cbn. rewrite lookup_insert_ne; [done |].
    intros <-. subst l. by rewrite fresh_not_allocated in Hms.
  - exact Hown.
Qed.

(** [self.message_queue[k]] answers the list bound to [k], binding a new
    empty one first when [k] is not bound yet. *)
Lemma queue_getitem_spec s k :
  queue_ok s ->
  exists l s',
    queue_getitem k s = (Ok l, s') /\
    queue_ok s' /\
    message_queue s' !! k = Some l /\
    heap s' !! l = Some (default [] (queued s k)) /\
    (forall k', k' <> k -> queued s' k' = queued s k') /\
    (forall l', is_Some (heap s !! l') -> heap s' !! l' = heap s !! l') /\
    env s' = env s.
Proof.
  intros Hok. unfold queue_getitem.
  destruct (message_queue s !! k) as [l|] eqn:Hk.
  - exists l, s. destruct Hok as [Halloc Hinj].
    destruct (Halloc _ _ Hk) as [ms Hms].
    repeat split; try done. unfold queued. rewrite Hk. cbn. by rewrite Hms.
  - destruct (bind_new_list s k Hok) as (Hok' & Hk' & Hfr & Hheap & _).
    eexists _, _. split; [reflexivity |].
    split; [exact Hok' |]. split; [cbn; by rewrite lookup_insert_eq |].
    split; [| split; [exact Hfr | split; [exact Hheap | done]]].
    unfold queued. rewrite Hk. cbn. by rewrite lookup_insert_eq.
Qed.

(** What [_add_to_queue] does to the state. *)
Lemma add_to_queue_effect (message : Message) s :
  queue_ok s ->
  exists s',
    _add_to_queue message s = (Ok tt, s') /\
    queued s' (name (sender (metadata message)))
      = Some (default [] (queued s (name (sender (metadata message))))
              ++ [message]) /\
    (forall k, k <> name (sender (metadata message)) -> queued s' k = queued s k) /\
    env s' = env s /\
    queue_ok s'.
Proof.
  intros Hok. set (k := name (sender (metadata message))).
  destruct (queue_getitem_spec s k Hok)
    as (l & s1 & Hget & [Halloc Hinj] & Hk & Hl & Hfr & _ & Henv).
  exists (set_heap (alter (fun ms => ms ++ [message]) l (heap s1)) s1).
  split; [| split; [| split; [| split; [done |]]]].
  - unfold _add_to_queue, mbind. fold k. by rewrite Hget.
  - unfold queued. cbn. rewrite Hk. cbn. by rewrite lookup_alter_eq, Hl.
  - intros k' Hne. rewrite <- (Hfr k' Hne). unfold queued. cbn.
    destruct (message_queue s1 !! k') as [l'|] eqn:Hk'; cbn; [| done].
    rewrite lookup_alter_ne; [done |]. intros <-. by destruct (Hinj _ _ _ Hk Hk').
  - split; cbn; [| exact Hinj].
    intros k' l' Hk'. destruct (Halloc _ _ Hk') as [ms Hms].
    destruct (decide (l = l')) as [<- | Hne].
    + rewrite lookup_alter_eq, Hms. by eexists.
    + rewrite lookup_alter_ne by done. by eexists.
Qed.

Lemma add_to_queue_ok (message : Message) s :
  queue_ok s -> queue_ok (_add_to_queue message s).2.
Proof.
  intros Hok. destruct (add_to_queue_effect message s Hok) as (s' & -> & H).
  cbn. tauto.
Qed.

(** C8: [_add_to_queue] appends the message at the end of the queue kept
    under the name of its sender (the empty queue when the name was not bound
    yet); the messages already there stay in place, in order, and the queue
    of every other name is unchanged. *)
Theorem add_to_queue_appends (message : Message) s :
  queue_ok s ->
  exists s',
    _add_to_queue message s = (Ok tt, s') /\
    queued s' (name (sender (metadata message)))
      = Some (default [] (queued s (name (sender (metadata message))))
              ++ [message]) /\
    (forall k, k <> name (sender (metadata message)) -> queued s' k = queued s k) /\
    env s' = env s /\
    queue_ok s'.
Proof. apply add_to_queue_effect. Qed.

(** The collation step of [boostrap_new_agent] on its own, run with a
    response that takes attributes: afterwards the queue of the agent factory is
    empty, the response refers under [json] to a list holding the messages
    that were queued, in their order, the queues of all other names are
    unchanged, and the list handed to the response is bound to no name any
    more. *)
Theorem collation_empties_factory_queue (response : pyobject) s :
  queue_ok s ->
  has_dict response = true ->
  exists l s',
    collate_agent_factory_responses response s
      = (Ok {| has_dict := true;
               attrs := <["json" := AttrList l]> (attrs response) |}, s') /\
    queued s' "autogpt-agent-factory" = Some [] /\
    heap s' !! l = Some (default [] (queued s "autogpt-agent-factory")) /\
    (forall k, k <> "autogpt-agent-factory" -> queued s' k = queued s k) /\
    (forall k, message_queue s' !! k <> Some l) /\
    env s' = env s /\
    queue_ok s'.
Proof.
  intros Hok Hdict.
  destruct (queue_getitem_spec s "autogpt-agent-factory" Hok)
    as (l & s1 & Hget & Hok1 & Hk & Hl & Hfr & _ & Henv).
  destruct (bind_new_list s1 "autogpt-agent-factory" Hok1)
    as (Hok2 & Hk2 & Hfr2 & Hheap2 & Hown2).
  exists l. eexists. split; [| split; [exact Hk2 | split; [| split; [| split]]]].
  - unfold collate_agent_factory_responses, mbind, list_new, queue_setitem,
      lift, ret, setattr.
    rewrite Hget, Hdict. reflexivity.
  - rewrite Hheap2; [exact Hl | by rewrite Hl].
  - intros k Hne. by rewrite Hfr2, Hfr.
  - intros k Hkl. cbn in Hkl.
    destruct (decide ("autogpt-agent-factory" = k)) as [<- | Hne].
    + rewrite lookup_insert_eq in Hkl. injection Hkl as Hkl.
      by apply (bound_not_fresh s1 _ _ Hok1 Hk).
    + rewrite lookup_insert_ne in Hkl by done.
      destruct Hok1 as [_ Hinj]. by destruct (Hinj _ _ _ Hk Hkl).
  - split; [exact Henv | exact Hok2].
Qed.

End Queue.

(** ** Dispatch *)

Section DispatchProperties.

Import Dispatch.

Context {World : Type}.

Implicit Types (c : Channel World) (b : Broker World)
  (r L : ListenerRegistration World) (regs : list (ListenerRegistration World))
  (st : dispatch_state World) (message : Message) (w : World).

Lemma deliver_invoked message st r :
  map fst (invoked (deliver message st r))
    = map fst (invoked st) ++ matching message [r].
Proof.
  unfold deliver, matching. cbn. destruct (filter r message).
  - destruct (callback r message (world st)) as [outcome w']. cbn.
    by rewrite map_app.
  - cbn. by rewrite app_nil_r.
Qed.

Lemma matching_app message regs regs' :
  matching message (regs ++ regs') = matching message regs ++ matching message regs'.
Proof. apply List.filter_app. Qed.

(** The dispatch loop invokes the matching registrations, in order. *)
Lemma dispatch_invoked message regs st :
  map fst (invoked (foldl (deliver message) st regs))
    = map fst (invoked st) ++ matching message regs.
Proof.
  revert st. induction regs as [| r regs IH]; intros st; cbn.
  - by rewrite app_nil_r.
  - rewrite IH, deliver_invoked, <- app_assoc. f_equal.
    symmetry. apply (matching_app message [r] regs).
Qed.

Lemma deliver_report_ok message st r :
  report_ok st -> report_ok (deliver message st r).
Proof.
  intros (Hs & Hm & Hf & Hsum & Hfail). unfold deliver.
  destruct (filter r message); [| done].
  destruct (callback r message (world st)) as [[e|] w']; unfold report_ok; cbn.
  - rewrite !length_app. cbn.
    split; [done |]. split; [lia |]. split; [lia |]. split; [lia |].
    intros r' e'. rewrite !elem_of_app, !list_elem_of_singleton, Hfail.
    split; (intros [Hin | Heq]; [by left | right; congruence]).
  - rewrite !length_app. cbn.
    split; [done |]. split; [lia |]. split; [lia |]. split; [lia |].
    intros r' e'. rewrite !elem_of_app, !list_elem_of_singleton, Hfail.
    split; [by left | by intros [Hin | Heq]].
Qed.

Lemma dispatch_report_ok message regs st :
  report_ok st -> report_ok (foldl (deliver message) st regs).
Proof.
  revert st. induction regs as [| r regs IH]; intros st Hst; cbn; [done |].
  by apply IH, deliver_report_ok.
Qed.

Lemma publish_report_ok c message w : report_ok (publish c message w).
Proof.
  apply dispatch_report_ok. unfold report_ok, dispatch_start. cbn.
  repeat split; try done; intros Hin; by apply elem_of_nil in Hin.
Qed.

Lemma publish_invoked c message w :
  map fst (invoked (publish c message w)) = matching message (registrations c).
Proof. unfold publish. by rewrite dispatch_invoked. Qed.

(** Splitting the matching registrations splits the registrations. *)
Lemma matching_split message regs (pre post : list (ListenerRegistration World)) L :
  matching message regs = pre ++ L :: post ->
  exists before after,
    regs = before ++ L :: after /\
    matching message before = pre /\
    matching message after = post.
Proof.
  revert pre. induction regs as [| r regs IH]; intros pre Hsplit.
  - by destruct pre.
  - unfold matching in *. cbn in Hsplit. destruct (filter r message) eqn:Hr.
    + destruct pre as [| p pre]; cbn in Hsplit.
      * injection Hsplit as -> Hpost. exists [], regs. by rewrite Hpost.
      * injection Hsplit as -> Hrest.
        destruct (IH pre Hrest) as (before & after & -> & Hb & Ha).
        exists (p :: before), after. cbn. rewrite Hr. by rewrite Hb, Ha.
    + destruct (IH pre Hsplit) as (before & after & -> & Hb & Ha).
      exists (r :: before), after. cbn. rewrite Hr. by rewrite Hb, Ha.
Qed.

(** In a channel numbered by position no two registrations share a number. *)
Lemma channel_ok_NoDup c :
  channel_ok c -> NoDup (map registration_order (registrations c)).
Proof.
  intros Hok. apply NoDup_alt. intros i j n Hi Hj.
  rewrite list_lookup_fmap in Hi, Hj.
  destruct (registrations c !! i) as [ri|] eqn:Hri; [| done].
  destruct (registrations c !! j) as [rj|] eqn:Hrj; [| done].
  cbn in Hi, Hj. apply Hok in Hri, Hrj. congruence.
Qed.

Lemma count_matching message regs L :
  NoDup (map registration_order regs) ->
  L ∈ regs ->
  count_occ Nat.eq_dec (map registration_order (matching message regs))
            (registration_order L)
    = if filter L message then 1 else 0.
Proof.
  unfold matching.
  induction regs as [| r regs IH]; intros Hnd Hin; [by apply elem_of_nil in Hin |].
  cbn in Hnd. apply NoDup_cons in Hnd as [Hfresh Hnd].
  assert (Hrest : r = L ->
            count_occ Nat.eq_dec
              (map registration_order (List.filter (fun r => filter r message) regs))
              (registration_order L) = 0).
  { intros ->. apply count_occ_not_In. intros Hin'. apply Hfresh.
    apply list_elem_of_In in Hin'. apply list_elem_of_fmap in Hin' as (r' & -> & Hr').
    apply list_elem_of_fmap. exists r'. split; [done |].
    apply list_elem_of_In. apply list_elem_of_In, List.filter_In in Hr'. tauto. }
  apply elem_of_cons in Hin as [<- | Hin].
  - cbn. destruct (filter L message); cbn.
    + rewrite Hrest by done. by destruct (Nat.eq_dec _ _).
    + by apply Hrest.
  - assert (registration_order r <> registration_order L) as Hne.
    { intros Heq. apply Hfresh. rewrite Heq. apply list_elem_of_fmap. by exists L. }
    cbn. destruct (filter r message); cbn; [| by apply IH].
    destruct (Nat.eq_dec _ _); [done | by apply IH].
Qed.

(** The broker only builds channels numbered by position. *)
Lemma create_channel_ok (n : string) b b' :
  broker_ok b -> create_channel n b = inr b' -> broker_ok b'.
Proof.
  unfold create_channel. intros Hok.
  destruct (channels b !! n) eqn:Hn; [done |]. intros [= <-] n' c'. cbn.
  destruct (decide (n = n')) as [<- | Hne].
  - rewrite lookup_insert_eq. intros [= <-] i r. cbn. by rewrite lookup_nil.
  - rewrite lookup_insert_ne by done. apply Hok.
Qed.

Lemma register_listener_ok (n : string) cb flt b b' :
  broker_ok b -> register_listener n cb flt b = inr b' -> broker_ok b'.
Proof.
  unfold register_listener. intros Hok.
  destruct (channels b !! n) as [c|] eqn:Hn; [| done]. intros [= <-] n' c'. cbn.
  destruct (decide (n = n')) as [<- | Hne].
  - rewrite lookup_insert_eq. intros [= <-] i r. cbn.
    intros [Hi | [Hle Hlast]]%lookup_app_Some.
    + by apply (Hok _ _ Hn).
    + destruct (i - length (registrations c)) as [| d] eqn:Hd.
      * injection Hlast as <-. cbn. lia.
      * by destruct d.
  - rewrite lookup_insert_ne by done. apply Hok.
Qed.

(** C3: when a message is published on a channel, the callback of a listener
    registered on it is invoked exactly once if the listener's filter accepts
    the message, and is not invoked if the filter rejects it. *)
Theorem publish_invokes_matching_once c L message w :
  channel_ok c ->
  L ∈ registrations c ->
  invocations (publish c message w) L = if filter L message then 1 else 0.
Proof.
  intros Hok Hin. unfold invocations.
  rewrite <- (map_map fst registration_order), publish_invoked.
  apply count_matching; [by apply channel_ok_NoDup | done].
Qed.

(** C4: when the callback of a matching listener fails during a publish, the
    failure is recorded in the dispatch result, the invocations that follow
    are those of all the matching listeners registered after it, and the
    publish reports success all the same. *)
Theorem publish_isolates_failures c message w L (e : exn)
    (pre post : list (ListenerRegistration World * option exn)) :
  invoked (publish c message w) = pre ++ (L, Some e) :: post ->
  (L, e) ∈ failures (report (publish c message w)) /\
  (exists before after,
     registrations c = before ++ L :: after /\
     map fst pre = matching message before /\
     map fst post = matching message after) /\
  failed (report (publish c message w))
    = length (failures (report (publish c message w))) /\
  success (report (publish c message w)) = true.
Proof.
  intros Hinv.
  destruct (publish_report_ok c message w) as (Hs & _ & Hf & _ & Hfail).
  split; [| split; [| done]].
  - apply Hfail. rewrite Hinv. apply elem_of_app. right. apply elem_of_cons. by left.
  - pose proof (publish_invoked c message w) as Hm.
    rewrite Hinv, map_app in Hm. cbn in Hm. symmetry in Hm.
    destruct (matching_split _ _ _ _ _ Hm) as (before & after & ? & ? & ?).
    by exists before, after.
Qed.

End DispatchProperties.

(** ** Runs on the sample data *)

Section Runs.

Import FakeApplicationServer.

(** The filters on the sample messages. *)
Example server_filter_run :
  MessageFilters.is_server_message (factory_message 1) = Ok (PBool true) /\
  MessageFilters.is_server_message (agent_message 1) = Ok (PBool true) /\
  MessageFilters.is_server_message user_plain_message = Ok (PBool false).
Proof. repeat split. Qed.

(** An [int] instruction is the one case in which an instruction filter
    returns: [True & 3] is [1], which is not a [str]. *)
Example bootstrap_filter_int_instruction :
  MessageFilters.is_user_bootstrap_message
    (message_from "autogpt-user" USER ∅ {[ "instruction" := PInt 3 ]})
    = Ok (PBool false).
Proof. reflexivity. Qed.

(** The broker builds the sample channel. *)
Example sample_broker_run :
  sample_broker = inr {| Dispatch.channels := {[ "autogpt" := sample_channel ]} |}.
Proof. reflexivity. Qed.

Lemma sample_channel_ok : Dispatch.channel_ok sample_channel.
Proof.
  intros [| [| [| i]]] r; cbn; intros Hr; try (by injection Hr as <-).
  by destruct i.
Qed.

(** The scenario of the spec with a failing first listener: A fails, B does
    not match, C is invoked all the same. *)
Example sample_publish_run :
  Dispatch.invoked (Dispatch.publish sample_channel user_plain_message 0)
    = [(listener_A, Some (OtherError "listener failed")); (listener_C, None)] /\
  Dispatch.world (Dispatch.publish sample_channel user_plain_message 0) = 2 /\
  Dispatch.report (Dispatch.publish sample_channel user_plain_message 0)
    = {| Dispatch.evaluated := 3; Dispatch.matched := 2; Dispatch.succeeded := 1;
         Dispatch.failed := 1;
         Dispatch.failures := [(listener_A, OtherError "listener failed")];
         Dispatch.success := true |}.
Proof. repeat split. Qed.

Lemma queued_server_ok : queue_ok queued_server.
Proof. do 3 apply add_to_queue_ok. apply queue_ok_empty. Qed.

Example queued_server_run :
  queued queued_server "autogpt-agent-factory"
    = Some [factory_message 1; factory_message 2] /\
  queued queued_server "autogpt-agent" = Some [agent_message 1] /\
  queued queued_server "autogpt-user" = None.
Proof. repeat split; vm_compute; reflexivity. Qed.

(** [boostrap_new_agent] on the sample request: the emitter receives the
    merged mappings, then the assignment to [status_code] raises; the queue
    of the agent factory is not collated. *)
Example boostrap_new_agent_run :
  boostrap_new_agent logging_emitter (PObject 1) sample_request (empty_server [])
    = (Raise (AttributeError "status_code"),
       empty_server
         [({[ "agent_name" := PStr "HelloBot"; "message_broker" := PObject 1 ]},
           {[ "instruction" := PStr "bootstrap_agent"; "trace" := PInt 7 ]})]).
Proof. vm_compute. reflexivity. Qed.

(** The collation step on the sample queue: the response refers to the list
    the factory queue was bound to, and the name is bound to a new list. *)
Example collation_run :
  collate_agent_factory_responses open_response queued_server
    = (Ok {| has_dict := true;
             attrs := {[ "status_code" := AttrVal (PInt 200);
                         "json" := AttrList 1 ]} |},
       {| message_queue := {[ "autogpt-agent-factory" := 3%positive;
                              "autogpt-agent" := 2%positive ]};
          heap := {[ 1%positive := [factory_message 1; factory_message 2];
                     2%positive := [agent_message 1];
                     3%positive := [] ]};
          env := tt |}).
Proof. vm_compute. reflexivity. Qed.

(** On a bare [object()] the same step rebinds the name and then raises: the
    queued messages are left with no owner. *)
Example collation_bare_object_run :
  collate_agent_factory_responses object_new queued_server
    = (Raise (AttributeError "json"),
       {| message_queue := {[ "autogpt-agent-factory" := 3%positive;
                              "autogpt-agent" := 2%positive ]};
          heap := {[ 1%positive := [factory_message 1; factory_message 2];
                     2%positive := [agent_message 1];
                     3%positive := [] ]};
          env := tt |}).
Proof. vm_compute. reflexivity. Qed.

(** A message queued after the collation goes to the new list; the list the
    response refers to keeps its contents. *)
Example collation_then_add_run :
  let s := (collate_agent_factory_responses open_response queued_server).2 in
  let s' := (_add_to_queue (factory_message 3) s).2 in
  heap s' !! 1%positive = Some [factory_message 1; factory_message 2] /\
  queued s' "autogpt-agent-factory" = Some [factory_message 3].
Proof. split; vm_compute; reflexivity. Qed.

(** C10: [boostrap_new_agent] does not collate.  On the sample request, with
    two messages queued for the agent factory and an emitter that reports
    success, it sends the message and then raises AttributeError: no response
    is returned, and the queue of the agent factory still holds its two
    messages instead of being empty.  For every emitter, broker, request and
    state the call ends in a raise, so the collation is never reached. *)
Theorem bootstrap_never_collates :
  queued queued_logging_server "autogpt-agent-factory"
    = Some [factory_message 1; factory_message 2] /\
  (exists s',
     boostrap_new_agent logging_emitter (PObject 1) sample_request
       queued_logging_server = (Raise (AttributeError "status_code"), s') /\
     env s' = [({[ "agent_name" := PStr "HelloBot"; "message_broker" := PObject 1 ]},
                {[ "instruction" := PStr "bootstrap_agent"; "trace" := PInt 7 ]})] /\
     message_queue s' = message_queue queued_logging_server /\
     heap s' = heap queued_logging_server /\
     queued s' "autogpt-agent-factory"
       = Some [factory_message 1; factory_message 2]) /\
  (forall (Env : Type) (send_message : pydict -> pydict -> M Env bool)
          (message_broker : pyval) (request : Request) (s : state Env),
     exists e s',
       boostrap_new_agent send_message message_broker request s = (Raise e, s')).
Proof.
  split; [vm_compute; reflexivity |]. split.
  - eexists. split; [vm_compute; reflexivity |].
    repeat split; vm_compute; reflexivity.
  - intros Env send_message message_broker request s.
    apply boostrap_new_agent_raises.
Qed.

End Runs.

(** ** Instances of the conditional theorems *)

Lemma publish_invokes_matching_once_witness :
  Dispatch.channel_ok sample_channel /\
  listener_A ∈ Dispatch.registrations sample_channel /\
  listener_B ∈ Dispatch.registrations sample_channel /\
  Dispatch.invocations
    (Dispatch.publish sample_channel user_plain_message 0) listener_A = 1 /\
  Dispatch.invocations
    (Dispatch.publish sample_channel user_plain_message 0) listener_B = 0.
Proof.
  assert (HA : listener_A ∈ Dispatch.registrations sample_channel)
    by (apply list_elem_of_In; cbn; tauto).
  assert (HB : listener_B ∈ Dispatch.registrations sample_channel)
    by (apply list_elem_of_In; cbn; tauto).
  split; [exact sample_channel_ok |]. split; [exact HA |]. split; [exact HB |].
  split.
  - exact (publish_invokes_matching_once sample_channel listener_A
             user_plain_message 0 sample_channel_ok HA).
  - exact (publish_invokes_matching_once sample_channel listener_B
             user_plain_message 0 sample_channel_ok HB).
Defined.

Lemma publish_isolates_failures_witness :
  (listener_A, OtherError "listener failed")
    ∈ Dispatch.failures
        (Dispatch.report (Dispatch.publish sample_channel user_plain_message 0)) /\
  (exists before after,
     Dispatch.registrations sample_channel = before ++ listener_A :: after /\
     map fst ([] : list (Dispatch.ListenerRegistration nat * option exn))
       = Dispatch.matching user_plain_message before /\
     map fst [(listener_C, @None exn)]
       = Dispatch.matching user_plain_message after) /\
  Dispatch.failed
    (Dispatch.report (Dispatch.publish sample_channel user_plain_message 0))
    = length (Dispatch.failures
        (Dispatch.report (Dispatch.publish sample_channel user_plain_message 0))) /\
  Dispatch.success
    (Dispatch.report (Dispatch.publish sample_channel user_plain_message 0)) = true.
Proof.
  apply (publish_isolates_failures sample_channel user_plain_message 0
           listener_A (OtherError "listener failed") [] [(listener_C, None)]).
  reflexivity.
Defined.

Lemma send_message_extras_take_precedence_witness :
  exists content metadata : pydict,
    (forall k v, ({[ "message_broker" := PObject 1 ]} : pydict) !! k = Some v ->
                 content !! k = Some v) /\
    (forall k, ({[ "message_broker" := PObject 1 ]} : pydict) !! k = None ->
               content !! k
                 = ({[ "agent_name" := PStr "HelloBot";
                       "message_broker" := PNone ]} : pydict) !! k) /\
    (forall k v, ({[ "instruction" := PStr "bootstrap_agent" ]} : pydict) !! k = Some v ->
                 metadata !! k = Some v) /\
    (forall k, ({[ "instruction" := PStr "bootstrap_agent" ]} : pydict) !! k = None ->
               metadata !! k
                 = ({[ "instruction" := PStr "launch_agent";
                       "trace" := PInt 7 ]} : pydict) !! k) /\
    FakeApplicationServer._send_message logging_emitter sample_request
      (Some {[ "message_broker" := PObject 1 ]})
      (Some {[ "instruction" := PStr "bootstrap_agent" ]}) (empty_server [])
      = match logging_emitter content metadata (empty_server []) with
        | (Ok _, s') => (Raise (AttributeError "status_code"), s')
        | (Raise e, s') => (Raise e, s')
        end.
Proof.
  apply (send_message_extras_take_precedence logging_emitter sample_request);
    reflexivity.
Defined.

Lemma send_message_always_raises_witness :
  (exists e,
     FakeApplicationServer._send_message logging_emitter sample_request None None
       (empty_server []) = (Raise e, empty_server [])) /\
  (exists e,
     FakeApplicationServer._send_message logging_emitter
       {| FakeApplicationServer.json := {[ "metadata" := PDict ∅ ]} |}
       (Some ∅) (Some ∅) (empty_server []) = (Raise e, empty_server [])) /\
  FakeApplicationServer._send_message logging_emitter sample_request
    (Some {[ "message_broker" := PObject 1 ]})
    (Some {[ "instruction" := PStr "bootstrap_agent" ]}) (empty_server [])
    = (Raise (AttributeError "status_code"),
       (logging_emitter
          ({[ "message_broker" := PObject 1 ]}
             ∪ {[ "agent_name" := PStr "HelloBot"; "message_broker" := PNone ]})
          ({[ "instruction" := PStr "bootstrap_agent" ]}
             ∪ {[ "instruction" := PStr "launch_agent"; "trace" := PInt 7 ]})
          (empty_server [])).2).
Proof.
  split; [| split].
  - destruct (send_message_always_raises logging_emitter sample_request
                None None (empty_server [])) as (_ & Hnone & _).
    destruct (Hnone (or_introl eq_refl)) as (e & He & _). by exists e.
  - destruct (send_message_always_raises logging_emitter
                {| FakeApplicationServer.json := {[ "metadata" := PDict ∅ ]} |}
                (Some ∅) (Some ∅) (empty_server [])) as (_ & _ & Hmalformed & _).
    destruct Hmalformed as (e & He & _); [| by exists e].
    left. intros rc. discriminate.
  - destruct (send_message_always_raises logging_emitter sample_request
                (Some {[ "message_broker" := PObject 1 ]})
                (Some {[ "instruction" := PStr "bootstrap_agent" ]})
                (empty_server [])) as (_ & _ & _ & _ & Hsent).
    eapply Hsent; reflexivity.
Defined.

Lemma add_to_queue_appends_witness :
  FakeApplicationServer.queue_ok queued_server /\
  exists s',
    FakeApplicationServer._add_to_queue (factory_message 3) queued_server
      = (Ok tt, s') /\
    FakeApplicationServer.queued s' "autogpt-agent-factory"
      = Some (default [] (FakeApplicationServer.queued queued_server
                            "autogpt-agent-factory")
              ++ [factory_message 3]) /\
    (forall k, k <> "autogpt-agent-factory" ->
               FakeApplicationServer.queued s' k
                 = FakeApplicationServer.queued queued_server k) /\
    FakeApplicationServer.env s' = FakeApplicationServer.env queued_server /\
    FakeApplicationServer.queue_ok s'.
Proof.
  split; [exact queued_server_ok |].
  exact (add_to_queue_appends (factory_message 3) queued_server queued_server_ok).
Defined.

Lemma collation_empties_factory_queue_witness :
  FakeApplicationServer.queue_ok queued_server /\
  FakeApplicationServer.has_dict open_response = true /\
  exists l s',
    FakeApplicationServer.collate_agent_factory_responses open_response queued_server
      = (Ok {| FakeApplicationServer.has_dict := true;
               FakeApplicationServer.attrs :=
                 <["json" := FakeApplicationServer.AttrList l]>
                   (FakeApplicationServer.attrs open_response) |}, s') /\
    FakeApplicationServer.queued s' "autogpt-agent-factory" = Some [] /\
    FakeApplicationServer.heap s' !! l
      = Some (default [] (FakeApplicationServer.queued queued_server
                            "autogpt-agent-factory")) /\
    (forall k, k <> "autogpt-agent-factory" ->
               FakeApplicationServer.queued s' k
                 = FakeApplicationServer.queued queued_server k) /\
    (forall k, FakeApplicationServer.message_queue s' !! k <> Some l) /\
    FakeApplicationServer.env s' = FakeApplicationServer.env queued_server /\
    FakeApplicationServer.queue_ok s'.
Proof.
  split; [exact queued_server_ok |]. split; [reflexivity |].
  exact (collation_empties_factory_queue open_response queued_server
           queued_server_ok eq_refl).
Defined.

(** * Further properties *)

(** ** The filters, together *)

Section FilterOutcomes.

Import MessageFilters.

Implicit Types (m : Message).

(** X1: on every message whose instruction, if it has one, is a value of the
    model ([None], a bool, an int, a [str], a list, a dict or an instance
    without operator overloads), [is_user_bootstrap_message] and
    [is_user_launch_message] do not return true: each of them either raises
    or returns false. *)
Theorem instruction_filters_accept_nothing m :
  (is_user_bootstrap_message m = Ok (PBool false) \/
   exists e, is_user_bootstrap_message m = Raise e) /\
  (is_user_launch_message m = Ok (PBool false) \/
   exists e, is_user_launch_message m = Raise e).
Proof.
  destruct (instruction_filters_never_true m) as [Hb Hl].
  destruct (instruction_filter_cases m) as [Eb El].
  rewrite Eb in Hb |- *. rewrite El in Hl |- *.
  destruct (additional_metadata (metadata m) !! "instruction") as [v|];
    [| split; right; by eexists].
  destruct (py_and (role_eq (role (sender (metadata m))) USER) v) as [conj|e];
    cbn in *; [| split; right; by eexists].
  split; left.
  - by destruct (py_eq_str conj "bootstrap_agent").
  - by destruct (py_eq_str conj "launch_agent").
Qed.

(** X2: on messages whose instruction, if any, is a value of the model
    ([None], a bool, an int, a [str], a list, a dict or an instance without
    operator overloads) the two instruction filters cannot be told apart:
    they have the same outcome, which depends on the instruction found and
    not on the text it is compared with: KeyError when there is none, false
    when it is a bool or an int, and the TypeError of [&] for [None], a
    [str], a list, a dict and an instance. *)
Theorem instruction_filters_coincide m :
  is_user_bootstrap_message m = is_user_launch_message m /\
  is_user_bootstrap_message m =
    match additional_metadata (metadata m) !! "instruction" with
    | None => Raise (KeyError "instruction")
    | Some (PBool _) | Some (PInt _) => Ok (PBool false)
    | Some v =>
        Raise (unsupported_operand "&"
                 (PBool (bool_decide (role (sender (metadata m)) = USER))) v)
    end.
Proof.
  destruct (instruction_filter_cases m) as [-> ->]. unfold role_eq.
  destruct (additional_metadata (metadata m) !! "instruction") as [v|]; [| done].
  by destruct v.
Qed.

(** X3: the role predicates exclude one another: a message that
    [is_server_message] accepts is not accepted by [is_user_message], and
    [is_agent_message] and [is_agent_factory_message] never both accept. *)
Theorem role_filters_exclusive m :
  ~ (is_user_message m = Ok (PBool true) /\ is_server_message m = Ok (PBool true)) /\
  ~ (is_agent_message m = Ok (PBool true) /\
     is_agent_factory_message m = Ok (PBool true)).
Proof.
  unfold is_server_message, is_user_message, is_agent_message,
    is_agent_factory_message, role_eq.
  destruct (role (sender (metadata m))); cbn; split; intros [H1 H2]; discriminate.
Qed.

End FilterOutcomes.

(** ** The queue under a sequence of deliveries *)

Section MailboxProperties.

Import FakeApplicationServer Mailbox.

Context {Env : Type}.

Implicit Types (s : state Env) (k : string) (l : loc) (message : Message)
  (messages : list Message).

Lemma deliver_all_ok messages s : queue_ok s -> queue_ok (deliver_all messages s).
Proof.
  revert s. induction messages as [| message rest IH]; intros s Hok; cbn; [done |].
  by apply IH, add_to_queue_ok.
Qed.

(** X4: after a sequence of deliveries from a state that satisfies the queue
    invariant, the queue of every sender name holds what it held before
    followed by the delivered messages of that sender, in delivery order; a
    name is bound exactly when it was bound before or has received a
    message; and the invariant holds again. *)
Theorem deliveries_partition_by_sender messages s :
  queue_ok s ->
  queue_ok (deliver_all messages s) /\
  forall k,
    default [] (queued (deliver_all messages s) k)
      = default [] (queued s k) ++ from_sender k messages /\
    (queued (deliver_all messages s) k = None <->
       queued s k = None /\ from_sender k messages = []).
Proof.
  intros Hok. split; [by apply deliver_all_ok |].
  revert s Hok. induction messages as [| message rest IH]; intros s Hok k; cbn.
  - rewrite app_nil_r. split; [done |]. split; [by intros -> | by intros [-> _]].
  - destruct (add_to_queue_effect message s Hok) as (s1 & Hrun & Hown & Hfr & _ & Hok1).
    rewrite Hrun. cbn. destruct (IH s1 Hok1 k) as [Hcontents Hbound].
    unfold from_sender in *. cbn.
    destruct (decide (name (sender (metadata message)) = k)) as [Heq | Hne].
    + rewrite bool_decide_eq_true_2 by done. subst k.
      rewrite Hcontents, Hown. cbn. rewrite <- app_assoc. split; [done |].
      rewrite Hbound, Hown. split; [by intros [? _] | by intros [_ ?]].
    + rewrite bool_decide_eq_false_2 by done.
      rewrite Hcontents, Hbound, (Hfr k) by done. done.
Qed.

(** A delivery leaves a detached list alone. *)
Lemma add_to_queue_detached message s l :
  queue_ok s -> detached s l ->
  heap (_add_to_queue message s).2 !! l = heap s !! l /\
  detached (_add_to_queue message s).2 l.
Proof.
  intros Hok [Halloc Hfree]. unfold _add_to_queue, mbind, queue_getitem.
  destruct (message_queue s !! name (sender (metadata message))) as [l0|] eqn:Hk; cbn.
  - assert (l0 <> l) by (intros ->; by apply (Hfree _ Hk)).
    split; [by rewrite lookup_alter_ne |].
    split; cbn; [by rewrite lookup_alter_ne | done].
  - assert (fresh (dom (heap s)) <> l) as Hnew.
    { intros <-. destruct Halloc as [ms Hms]. by rewrite fresh_not_allocated in Hms. }
    split; [by rewrite lookup_alter_ne, lookup_insert_ne |].
    split; cbn; [by rewrite lookup_alter_ne, lookup_insert_ne |]. intros k.
    destruct (decide (name (sender (metadata message)) = k)) as [<- | Hne].
    + rewrite lookup_insert_eq. congruence.
    + rewrite lookup_insert_ne by done. apply Hfree.
Qed.

Lemma deliver_all_detached messages s l :
  queue_ok s -> detached s l ->
  heap (deliver_all messages s) !! l = heap s !! l.
Proof.
  revert s. induction messages as [| message rest IH]; intros s Hok Hdet; cbn; [done |].
  destruct (add_to_queue_detached message s l Hok Hdet) as [Hsame Hdet'].
  rewrite IH; [done | by apply add_to_queue_ok | done].
Qed.

(** What the collation step does to the state. *)
Lemma collation_effect (response : pyobject) s :
  queue_ok s ->
  has_dict response = true ->
  exists l s',
    collate_agent_factory_responses response s
      = (Ok {| has_dict := true;
               attrs := <["json" := AttrList l]> (attrs response) |}, s') /\
    heap s' !! l = Some (default [] (queued s "autogpt-agent-factory")) /\
    detached s' l /\
    queue_ok s'.
Proof.
  intros Hok Hdict.
  destruct (queue_getitem_spec s "autogpt-agent-factory" Hok)
    as (l & s1 & Hget & Hok1 & Hk & Hl & Hfr & _ & Henv).
  destruct (bind_new_list s1 "autogpt-agent-factory" Hok1)
    as (Hok2 & Hk2 & Hfr2 & Hheap2 & Hown2).
  exists l. eexists. split; [| split; [| split; [split |]]].
  - unfold collate_agent_factory_responses, mbind, list_new, queue_setitem,
      lift, ret, setattr.
    rewrite Hget, Hdict. reflexivity.
  - rewrite Hheap2; [exact Hl | by rewrite Hl].
  - rewrite Hheap2; [by rewrite Hl | by rewrite Hl].
  - intros k Hkl. cbn in Hkl.
    destruct (decide ("autogpt-agent-factory" = k)) as [<- | Hne].
    + rewrite lookup_insert_eq in Hkl. injection Hkl as Hkl.
      by apply (bound_not_fresh s1 _ _ Hok1 Hk).
    + rewrite lookup_insert_ne in Hkl by done.
      destruct Hok1 as [_ Hinj]. by destruct (Hinj _ _ _ Hk Hkl).
  - exact Hok2.
Qed.

(** X5: the list that the collation step hands to the response is a
    snapshot: whatever messages are delivered to the queue afterwards, the
    list still holds exactly the messages that were queued for the agent
    factory when the step ran. *)
Theorem collated_responses_are_stable (response : pyobject) s messages :
  queue_ok s ->
  has_dict response = true ->
  exists l s',
    collate_agent_factory_responses response s
      = (Ok {| has_dict := true;
               attrs := <["json" := AttrList l]> (attrs response) |}, s') /\
    heap (deliver_all messages s') !! l
      = Some (default [] (queued s "autogpt-agent-factory")).
Proof.
  intros Hok Hdict.
  destruct (collation_effect response s Hok Hdict) as (l & s' & Hrun & Hl & Hdet & Hok').
  exists l, s'. split; [done |]. by rewrite deliver_all_detached.
Qed.

Lemma give_agent_feedback_steps
    (send_message : pydict -> pydict -> M Env bool) (request : Request) :
  give_agent_feedback send_message request
    = mbind (_send_message send_message request None None) collect_agent_feedback.
Proof. reflexivity. Qed.

(** X6: the feedback step of [give_agent_feedback], run with a response that
    takes attributes: it removes the message queued last for [autogpt-agent]
    (the newest, not the oldest) and leaves the earlier ones and all other
    queues as they are; when no message is queued it raises IndexError, and
    the queues keep their contents. *)
Theorem feedback_takes_newest (response : pyobject) s :
  queue_ok s ->
  has_dict response = true ->
  (forall earlier newest,
     queued s "autogpt-agent" = Some (earlier ++ [newest]) ->
     exists s',
       collect_agent_feedback response s = (Ok tt, s') /\
       queued s' "autogpt-agent" = Some earlier /\
       (forall k, k <> "autogpt-agent" -> queued s' k = queued s k)) /\
  (default [] (queued s "autogpt-agent") = [] ->
     exists s',
       collect_agent_feedback response s
         = (Raise (IndexError "pop from empty list"), s') /\
       forall k, default [] (queued s' k) = default [] (queued s k)).
Proof.
  intros Hok Hdict.
  destruct (queue_getitem_spec s "autogpt-agent" Hok)
    as (l & s1 & Hget & [Halloc Hinj] & Hk & Hl & Hfr & _ & _).
  unfold collect_agent_feedback, mbind, list_pop, lift, ret, setattr.
  rewrite Hget, Hl, Hdict. cbn. split.
  - intros earlier newest Hq. rewrite Hq. cbn. rewrite last_snoc.
    eexists. split; [reflexivity |]. split.
    + unfold queued. cbn. rewrite Hk. cbn. rewrite lookup_alter_eq, Hl, Hq. cbn.
      f_equal. rewrite length_app. cbn.
      replace (length earlier + 1 - 1) with (length earlier) by lia.
      by rewrite take_app_length.
    + intros k Hne. rewrite <- (Hfr k Hne). unfold queued. cbn.
      destruct (message_queue s1 !! k) as [l'|] eqn:Hk'; cbn; [| done].
      rewrite lookup_alter_ne; [done |]. intros <-. by destruct (Hinj _ _ _ Hk Hk').
  - intros Hempty. rewrite Hempty. cbn. eexists. split; [reflexivity |].
    intros k. destruct (decide (k = "autogpt-agent")) as [-> | Hne].
    + unfold queued at 1. rewrite Hk. cbn. by rewrite Hl.
    + by rewrite Hfr.
Qed.

End MailboxProperties.

Lemma deliveries_partition_by_sender_witness :
  FakeApplicationServer.queue_ok (empty_server tt) /\
  default [] (FakeApplicationServer.queued (Mailbox.deliver_all
                        [factory_message 1; agent_message 1; factory_message 2]
                        (empty_server tt)) "autogpt-agent-factory")
    = [] ++ [factory_message 1; factory_message 2].
Proof.
  split; [apply queue_ok_empty |].
  apply (deliveries_partition_by_sender
           [factory_message 1; agent_message 1; factory_message 2]
           (empty_server tt) (queue_ok_empty tt)).
Defined.

(** ** The entry points of the application server *)

Section EntryPoints.

Import FakeApplicationServer.

Context {Env : Type}.

Implicit Types (request : Request) (s : state Env)
  (send_message : pydict -> pydict -> M Env bool).

(** X7: [launch_agent] and [give_agent_feedback], which leave both extras at
    [None], raise on every request, whatever the emitter: KeyError when the
    request has no [content], TypeError otherwise.  The state is untouched:
    nothing is sent, and [give_agent_feedback] never reaches the queue. *)
Theorem entry_points_without_extras_raise request s :
  let e := match json request !! "content" with
           | None => KeyError "content"
           | Some (PDict _) => not_a_mapping "NoneType"
           | Some v => not_a_mapping (type_name v)
           end in
  forall send_message,
    launch_agent send_message request s = (Raise e, s) /\
    give_agent_feedback send_message request s = (Raise e, s).
Proof.
  intros e send_message. subst e.
  unfold give_agent_feedback, launch_agent, mbind.
  rewrite send_message_steps. unfold dict_display, getitem.
  destruct (json request !! "content") as [v|]; [| done].
  by destruct v.
Qed.

(** X8: on a request with mappings under [content] and [metadata],
    [boostrap_new_agent] calls the emitter once, with the request's content
    in which [message_broker] is the server's broker and the request's
    metadata in which [instruction] is [bootstrap_agent], whatever the
    request says under these two keys; it then raises (AttributeError after a
    send that returns) in the state the emitter has left, so the queue of the
    agent factory is never collated. *)
Theorem bootstrap_forces_its_extras send_message (message_broker : pyval)
    request (rc rm : pydict) s :
  json request !! "content" = Some (PDict rc) ->
  json request !! "metadata" = Some (PDict rm) ->
  boostrap_new_agent send_message message_broker request s =
    match send_message (<["message_broker" := message_broker]> rc)
                       (<["instruction" := PStr "bootstrap_agent"]> rm) s with
    | (Ok _, s') => (Raise (AttributeError "status_code"), s')
    | (Raise e, s') => (Raise e, s')
    end.
Proof.
  intros Hc Hm. unfold boostrap_new_agent, mbind. rewrite send_message_steps.
  rewrite (dict_display_mappings _ _ _ _ Hc), (dict_display_mappings _ _ _ _ Hm).
  rewrite <- !insert_union_singleton_l.
  by destruct (send_message _ _ s) as [[sent|e] s'].
Qed.

(** X9: a request that lacks a mapping is rejected before anything is sent,
    and [content] is looked at first: without [content] the KeyError names
    [content] whatever the rest; with a [content] that is no mapping it is a
    TypeError; with a proper [content], given extras and no [metadata] the
    KeyError names [metadata].  The state is untouched in each case. *)
Theorem send_message_rejects_malformed_request send_message request
    (extra_content extra_metadata : option pydict) s :
  (json request !! "content" = None ->
   _send_message send_message request extra_content extra_metadata s
     = (Raise (KeyError "content"), s)) /\
  (forall v, json request !! "content" = Some v -> (forall d, v <> PDict d) ->
   _send_message send_message request extra_content extra_metadata s
     = (Raise (not_a_mapping (type_name v)), s)) /\
  (forall rc ec, json request !! "content" = Some (PDict rc) ->
   extra_content = Some ec ->
   json request !! "metadata" = None ->
   _send_message send_message request extra_content extra_metadata s
     = (Raise (KeyError "metadata"), s)).
Proof.
  rewrite send_message_steps. unfold dict_display, getitem. split; [| split].
  - by intros ->.
  - intros v -> Hv. destruct v; try done. by destruct (Hv d).
  - by intros rc ec -> -> ->.
Qed.

End EntryPoints.

Lemma bootstrap_forces_its_extras_witness :
  FakeApplicationServer.boostrap_new_agent logging_emitter (PObject 1)
    sample_request (empty_server [])
  = match logging_emitter
            (<["message_broker" := PObject 1]>
               {[ "agent_name" := PStr "HelloBot"; "message_broker" := PNone ]})
            (<["instruction" := PStr "bootstrap_agent"]>
               {[ "instruction" := PStr "launch_agent"; "trace" := PInt 7 ]})
            (empty_server []) with
    | (Ok _, s') => (Raise (AttributeError "status_code"), s')
    | (Raise e, s') => (Raise e, s')
    end.
Proof.
  apply (bootstrap_forces_its_extras logging_emitter (PObject 1) sample_request);
    reflexivity.
Defined.

Lemma send_message_rejects_malformed_request_witness :
  FakeApplicationServer._send_message logging_emitter
    {| FakeApplicationServer.json := {[ "metadata" := PDict ∅ ]} |}
    (Some ∅) (Some ∅) (empty_server [])
    = (Raise (KeyError "content"), empty_server []) /\
  FakeApplicationServer._send_message logging_emitter
    {| FakeApplicationServer.json := {[ "content" := PList [] ]} |}
    (Some ∅) (Some ∅) (empty_server [])
    = (Raise (TypeError "'list' object is not a mapping"), empty_server []) /\
  FakeApplicationServer._send_message logging_emitter
    {| FakeApplicationServer.json := {[ "content" := PDict ∅ ]} |}
    (Some ∅) (Some ∅) (empty_server [])
    = (Raise (KeyError "metadata"), empty_server []).
Proof.
  split; [| split].
  - destruct (send_message_rejects_malformed_request logging_emitter
                {| FakeApplicationServer.json := {[ "metadata" := PDict ∅ ]} |}
                (Some ∅) (Some ∅) (empty_server [])) as (Hcontent & _ & _).
    apply Hcontent. reflexivity.
  - destruct (send_message_rejects_malformed_request logging_emitter
                {| FakeApplicationServer.json := {[ "content" := PList [] ]} |}
                (Some ∅) (Some ∅) (empty_server [])) as (_ & Hmapping & _).
    apply (Hmapping (PList [])); [reflexivity | intros d; discriminate].
  - destruct (send_message_rejects_malformed_request logging_emitter
                {| FakeApplicationServer.json := {[ "content" := PDict ∅ ]} |}
                (Some ∅) (Some ∅) (empty_server [])) as (_ & _ & Hmetadata).
    apply (Hmetadata ∅ ∅); reflexivity.
Defined.

Lemma collated_responses_are_stable_witness :
  FakeApplicationServer.queue_ok queued_server /\
  exists l s',
    FakeApplicationServer.collate_agent_factory_responses open_response queued_server
      = (Ok {| FakeApplicationServer.has_dict := true;
               FakeApplicationServer.attrs :=
                 <["json" := FakeApplicationServer.AttrList l]>
                   (FakeApplicationServer.attrs open_response) |}, s') /\
    FakeApplicationServer.heap
      (Mailbox.deliver_all [factory_message 3; agent_message 2] s') !! l
      = Some (default [] (FakeApplicationServer.queued queued_server
                            "autogpt-agent-factory")).
Proof.
  split; [exact queued_server_ok |].
  exact (collated_responses_are_stable open_response queued_server
           [factory_message 3; agent_message 2] queued_server_ok eq_refl).
Defined.

Lemma feedback_takes_newest_witness :
  exists s',
    Mailbox.collect_agent_feedback open_response
      (Mailbox.deliver_all [agent_message 2] queued_server) = (Ok tt, s') /\
    FakeApplicationServer.queued s' "autogpt-agent" = Some [agent_message 1] /\
    (forall k, k <> "autogpt-agent" ->
       FakeApplicationServer.queued s' k
         = FakeApplicationServer.queued
             (Mailbox.deliver_all [agent_message 2] queued_server) k).
Proof.
  assert (Hok : FakeApplicationServer.queue_ok
                  (Mailbox.deliver_all [agent_message 2] queued_server))
    by (apply deliver_all_ok, queued_server_ok).
  destruct (feedback_takes_newest open_response _ Hok eq_refl) as [Hpop _].
  apply (Hpop [agent_message 1] (agent_message 2)).
  vm_compute. reflexivity.
Defined.

(** ** Module-level functions and HTTP handlers *)

Section ServerModule.

Import Server.

Implicit Types (request : Request) (key agent_id : string).

(** X10: the workspace path is the fixed directory followed by the agent
    name as it is, so two agent names share a workspace path only when they
    are the same name, and the path is 20 characters longer than the name. *)
Theorem workspace_paths_identify_agents (a b : string) :
  (_get_workspace_path_from_agent_name a = _get_workspace_path_from_agent_name b
     <-> a = b) /\
  String.length (_get_workspace_path_from_agent_name a) = 20 + String.length a.
Proof.
  unfold _get_workspace_path_from_agent_name. cbn. split; [split |].
  - intros H. by simplify_eq.
  - by intros ->.
  - reflexivity.
Qed.

Lemma server_globals_lookups :
  server_globals !! "Agent" = None /\
  server_globals !! "_get_workspace_path_from_agent_name" = Some (PObject 20).
Proof. split; vm_compute; reflexivity. Qed.

(** In namespaces that bind [Agent], [launch_agent] hands the class the
    workspace path of the named agent and the broker found in the message. *)
Lemma module_launch_agent_calls_agent (str_of : pyval -> string)
    (run_agent : pyval -> string -> pyval -> failure + unit)
    (globals builtins : gmap string pyval) (message : Message)
    (broker agent_class : pyval) (agent_name : string) :
  content message !! "message_broker" = Some broker ->
  content message !! "agent_name" = Some (PStr agent_name) ->
  is_Some (globals !! "_get_workspace_path_from_agent_name") ->
  globals !! "Agent" = Some agent_class ->
  launch_agent str_of run_agent globals builtins message
    = run_agent agent_class ("~/autogpt_workspace/" +:+ agent_name) broker.
Proof.
  intros Hb Hn [f Hf] Ha. unfold launch_agent, getitem, load_global.
  by rewrite Hb, Hn, Hf, Ha.
Qed.

(** X11: in the namespace of server.py, and with built-ins that bind no name
    [Agent], the module-level [launch_agent] never returns and never reaches
    the agent class, whatever that class would do: a content without
    [message_broker] raises KeyError for it, else a content without
    [agent_name] raises KeyError for that, and a content with both raises
    NameError, since resolving [Agent] finds no binding among the names the
    module binds. *)
Theorem module_launch_agent_never_launches (str_of : pyval -> string)
    (run_agent : pyval -> string -> pyval -> failure + unit)
    (builtins : gmap string pyval) (message : Message) :
  builtins !! "Agent" = None ->
  (exists f, launch_agent str_of run_agent server_globals builtins message = inl f) /\
  launch_agent str_of run_agent server_globals builtins message =
    match content message !! "message_broker", content message !! "agent_name" with
    | None, _ => inl (Builtin (KeyError "message_broker"))
    | Some _, None => inl (Builtin (KeyError "agent_name"))
    | Some _, Some _ => inl (NameError "Agent")
    end.
Proof.
  intros Hbuiltin. destruct server_globals_lookups as [Hagent Hpath].
  unfold launch_agent, getitem, load_global. rewrite Hagent, Hpath, Hbuiltin.
  destruct (content message !! "message_broker"),
    (content message !! "agent_name"); split; try done; by eexists.
Qed.

(** The API key counts as missing when the header is absent or empty. *)
Lemma py_not_true (api_key : option string) :
  py_not api_key = true <-> api_key = None \/ api_key = Some "".
Proof.
  destruct api_key as [k|]; cbn.
  - rewrite bool_decide_eq_true. split; [intros ->; by right | by intros [? | [= ->]]].
  - split; [by left | done].
Qed.

(** X12: [create_agent] answers with the HTTPException of status 401 exactly
    when the [openai_api_key] header is absent or empty; with any other value
    of the header it returns the mapping whose only entry is the identifier
    drawn, under [agent_id], which carries the declared response model; the
    request body has no influence on the answer. *)
Theorem create_agent_checks_api_key request (body : CreateAgentRequestBody)
    (uuid4_hex : string) :
  (create_agent request body uuid4_hex = inl missing_api_key <->
     headers_get (headers request) "openai_api_key" = None \/
     headers_get (headers request) "openai_api_key" = Some "") /\
  (forall key, headers_get (headers request) "openai_api_key" = Some key ->
     key <> "" ->
     create_agent request body uuid4_hex
       = inr (PDict {[ "agent_id" := PStr uuid4_hex ]}) /\
     carries CreateAgentResponseBody (PDict {[ "agent_id" := PStr uuid4_hex ]}) = true) /\
  (forall body', create_agent request body' uuid4_hex
                   = create_agent request body uuid4_hex).
Proof.
  unfold create_agent, missing_api_key. split; [| split].
  - rewrite <- py_not_true.
    destruct (py_not (headers_get (headers request) "openai_api_key")); by split.
  - intros key Hkey Hne. rewrite Hkey. cbn.
    rewrite bool_decide_eq_false_2 by done. split; [done |].
    cbn. by rewrite lookup_singleton_eq.
  - done.
Qed.

(** X13: [interact] makes the same check of the API key; when the key is
    there, what it returns carries the declared [InteractResponseBody], and
    neither the agent id nor the body changes the answer. *)
Theorem interact_checks_api_key request agent_id (body : InteractRequestBody) :
  (interact request agent_id body = inl missing_api_key <->
     headers_get (headers request) "openai_api_key" = None \/
     headers_get (headers request) "openai_api_key" = Some "") /\
  (forall key, headers_get (headers request) "openai_api_key" = Some key ->
     key <> "" ->
     exists payload,
       interact request agent_id body = inr payload /\
       carries InteractResponseBody payload = true) /\
  (forall agent_id' body', interact request agent_id' body'
                             = interact request agent_id body).
Proof.
  unfold interact, missing_api_key. split; [| split].
  - rewrite <- py_not_true.
    destruct (py_not (headers_get (headers request) "openai_api_key")); by split.
  - intros key Hkey Hne. rewrite Hkey. cbn.
    rewrite bool_decide_eq_false_2 by done.
    eexists. split; [reflexivity |]. vm_compute. reflexivity.
  - done.
Qed.

(** The check of a declared model is not satisfied by just any value. *)
Example carries_rejects :
  carries InteractResponseBody (PDict ∅) = false /\
  carries CreateAgentResponseBody (PDict {[ "agent_id" := PInt 7 ]}) = false /\
  carries Command
    (PDict {[ "name" := PStr "task_complete";
              "args" := PDict {[ "reason" := PNone ]} ]}) = false /\
  carries ListAgentsResponseBody (PDict {[ "agents" := PList [PDict ∅] ]}) = false.
Proof. repeat split; vm_compute; reflexivity. Qed.

(** X14: [list_agents] answers every request, also one without an API key,
    and what it returns carries the declared [ListAgentsResponseBody]. *)
Theorem list_agents_answers_every_request request :
  exists payload,
    list_agents request = inr payload /\
    carries ListAgentsResponseBody payload = true.
Proof.
  unfold list_agents. eexists. split; [reflexivity |]. vm_compute. reflexivity.
Qed.

(** X15: [interact_history] answers every request for every agent id, also
    without an API key, and what it returns carries the declared
    [InteractHistoryResponseBody]. *)
Theorem interact_history_answers_every_request request agent_id :
  exists payload,
    interact_history request agent_id = inr payload /\
    carries InteractHistoryResponseBody payload = true.
Proof.
  unfold interact_history. eexists. split; [reflexivity |]. vm_compute. reflexivity.
Qed.

End ServerModule.

Lemma create_agent_checks_api_key_witness :
  Server.create_agent {| Server.headers := [("accept", "*/*"); ("openai_api_key", "sk-1")] |}
    {| Server.ai_name := "HelloBot"; Server.ai_role := "greets";
       Server.ai_goals := ["Shut down."] |}
    "b50932f1da8148a092736066b4cdc432"
  = inr (PDict {[ "agent_id" := PStr "b50932f1da8148a092736066b4cdc432" ]}) /\
  Server.carries Server.CreateAgentResponseBody
    (PDict {[ "agent_id" := PStr "b50932f1da8148a092736066b4cdc432" ]}) = true.
Proof.
  destruct (create_agent_checks_api_key
              {| Server.headers := [("accept", "*/*"); ("openai_api_key", "sk-1")] |}
              {| Server.ai_name := "HelloBot"; Server.ai_role := "greets";
                 Server.ai_goals := ["Shut down."] |}
              "b50932f1da8148a092736066b4cdc432") as (_ & Hkey & _).
  apply (Hkey "sk-1"); [reflexivity | discriminate].
Defined.

Lemma interact_checks_api_key_witness :
  exists payload,
    Server.interact {| Server.headers := [("openai_api_key", "sk-1")] |}
      "b50932f1da8148a092736066b4cdc432" {| Server.user_input := None |}
      = inr payload /\
    Server.carries Server.InteractResponseBody payload = true.
Proof.
  destruct (interact_checks_api_key
              {| Server.headers := [("openai_api_key", "sk-1")] |}
              "b50932f1da8148a092736066b4cdc432"
              {| Server.user_input := None |}) as (_ & Hkey & _).
  apply (Hkey "sk-1"); [reflexivity | discriminate].
Defined.


Lemma module_launch_agent_never_launches_witness :
  Server.launch_agent (fun _ => "") (fun _ _ _ => inr tt) Server.server_globals
    {[ "len" := PObject 100; "object" := PObject 101 ]}
    (message_from "autogpt-user" USER
       {[ "message_broker" := PObject 1; "agent_name" := PStr "HelloBot" ]} ∅)
  = inl (Server.NameError "Agent").
Proof.
  destruct (module_launch_agent_never_launches (fun _ => "") (fun _ _ _ => inr tt)
              {[ "len" := PObject 100; "object" := PObject 101 ]}
              (message_from "autogpt-user" USER
                 {[ "message_broker" := PObject 1; "agent_name" := PStr "HelloBot" ]} ∅))
    as [_ Hcases]; [reflexivity |].
  exact Hcases.
Defined.
